(** * Content synchronisation and site lock of the portfolio application

    A shallow embedding of [AppContent] in [src/App.tsx]: the load protocol
    ([fetchData]), the locale effect, the debounced save
    ([saveStateToFirestore]) with its sanitisation, and the lock handlers
    ([handleUnlockSite], [handleAdminLoginForUnlock]).

    React state cells become fields of a record, every [useEffect] body and
    every handler becomes a function on that record, and the React commit
    cycle is a [step] function on a configuration that also carries the
    clock, the browser timers, the fetches in flight and the log of calls
    made on the remote store. *)

From Stdlib Require Import ZArith Lia.
From stdpp Require Import base option gmap strings list pretty.

Set Warnings "-register-all".
Local Open Scope string_scope.
Local Open Scope list_scope.
Local Open Scope nat_scope.

(** ** JavaScript values

    The values held by the state cells and by the remote document are the
    JSON values.  A property that is absent (or [undefined]) is a failed
    lookup.  Numbers are never computed with, only tested for truthiness;
    they are carried as integers and stand for the finite numbers. *)

Inductive value : Type :=
  | Null
  | Bool (b : bool)
  | Num (n : Z)
  | Str (s : string)
  | Arr (l : list value)
  | Obj (m : gmap string value).

Abbreviation obj := (gmap string value).

(** [ToBoolean]: [null], [false], [0] and [''] are falsy, every array and
    every object is truthy, the empty ones included. *)
Definition truthy (v : value) : bool :=
  match v with
  | Null => false
  | Bool b => b
  | Num n => negb (n =? 0)%Z
  | Str s => negb (String.eqb s "")
  | Arr _ | Obj _ => true
  end.

Definition toBoolean (x : option value) : bool :=
  match x with
  | Some v => truthy v
  | None => false
  end.

(** [x || d] where [x] is a property read. *)
Definition or_else (x : option value) (d : value) : value :=
  match x with
  | Some v => if truthy v then v else d
  | None => d
  end.

Definition indexed {A} (l : list A) : list (string * A) :=
  imap (λ i x, (pretty i, x)) l.

Fixpoint chars (s : string) : list value :=
  match s with
  | EmptyString => []
  | String a s' => Str (String a EmptyString) :: chars s'
  end.

(** The own enumerable properties copied by [...v] inside an object
    literal: the fields of an object, the indices of an array or of a
    string, nothing for the other primitives. *)
Definition ownProps (v : value) : obj :=
  match v with
  | Obj m => m
  | Arr l => list_to_map (indexed l)
  | Str s => list_to_map (indexed (chars s))
  | _ => ∅
  end.

(** [{ ...base, ...v }]: the properties of [v] win. *)
Definition objectSpread (base : obj) (v : value) : obj :=
  ownProps v ∪ base.

(** [s === x] for a string [s] and a property read [x]. *)
Definition strictEqStr (s : string) (x : option value) : bool :=
  match x with
  | Some (Str t) => String.eqb s t
  | _ => false
  end.

(** [Object.is], by which React compares effect dependencies.  Primitives
    are compared by value; an array or an object under the dependency is
    taken to be a new allocation. *)
Definition object_is (x y : option value) : bool :=
  match x, y with
  | None, None => true
  | Some Null, Some Null => true
  | Some (Bool a), Some (Bool b) => eqb a b
  | Some (Num a), Some (Num b) => (a =? b)%Z
  | Some (Str a), Some (Str b) => String.eqb a b
  | _, _ => false
  end.

(** [x?.startsWith('data:')] for a property read [x].  [None] is the
    [TypeError] raised when [x] is neither nullish nor a string. *)
Definition startsWithData (x : option value) : option bool :=
  match x with
  | None | Some Null => Some false
  | Some (Str s) => Some (String.prefix "data:" s)
  | Some _ => None
  end.

(** ** Data model *)

Inductive Language := VI | EN.

#[global] Instance Language_eq_dec : EqDecision Language.
Proof. solve_decision. Defined.

Module Page.
Inductive t := Introduction | Experience | Projects | Certifications | Skills | Settings.
End Page.

(** The six values that are persisted: [stateToSave] and [initialState]
    in the source, the SyncDocument of the specification. *)
Record SyncDocument := {
  personalInfo : obj;
  workExperience : value;
  projects : value;
  certifications : value;
  skills : value;
  themeSettings : obj;
}.

Record AppState := {
  currentPage : Page.t;
  selectedProject : option value;
  isAuthenticated : bool;
  isSiteUnlocked : bool;
  content : SyncDocument;
  isLoading : bool;
  error : option string;
}.

(** The imports of [./constants] and [./firebase], which are not part of
    the sources at hand: they are parameters of the development. *)
Record Constants := {
  PERSONAL_INFO_VI : obj;
  WORK_EXPERIENCE_VI : list value;
  PROJECTS_VI : list value;
  CERTIFICATIONS_VI : list value;
  SKILLS_DATA_VI : list value;
  PERSONAL_INFO_EN : obj;
  WORK_EXPERIENCE_EN : list value;
  PROJECTS_EN : list value;
  CERTIFICATIONS_EN : list value;
  SKILLS_DATA_EN : list value;
  INITIAL_THEME_SETTINGS : obj;
  firebaseInitializationError : option string;
}.

(** *** State setters *)

Definition setPersonalInfo (v : obj) (d : SyncDocument) : SyncDocument :=
  {| personalInfo := v; workExperience := workExperience d; projects := projects d;
     certifications := certifications d; skills := skills d; themeSettings := themeSettings d |}.

Definition setWorkExperience (v : value) (d : SyncDocument) : SyncDocument :=
  {| personalInfo := personalInfo d; workExperience := v; projects := projects d;
     certifications := certifications d; skills := skills d; themeSettings := themeSettings d |}.

Definition setProjects (v : value) (d : SyncDocument) : SyncDocument :=
  {| personalInfo := personalInfo d; workExperience := workExperience d; projects := v;
     certifications := certifications d; skills := skills d; themeSettings := themeSettings d |}.

Definition setCertifications (v : value) (d : SyncDocument) : SyncDocument :=
  {| personalInfo := personalInfo d; workExperience := workExperience d; projects := projects d;
     certifications := v; skills := skills d; themeSettings := themeSettings d |}.

Definition setSkills (v : value) (d : SyncDocument) : SyncDocument :=
  {| personalInfo := personalInfo d; workExperience := workExperience d; projects := projects d;
     certifications := certifications d; skills := v; themeSettings := themeSettings d |}.

Definition setThemeSettings (v : obj) (d : SyncDocument) : SyncDocument :=
  {| personalInfo := personalInfo d; workExperience := workExperience d; projects := projects d;
     certifications := certifications d; skills := skills d; themeSettings := v |}.

Definition setContent (d : SyncDocument) (st : AppState) : AppState :=
  {| currentPage := currentPage st; selectedProject := selectedProject st;
     isAuthenticated := isAuthenticated st; isSiteUnlocked := isSiteUnlocked st;
     content := d; isLoading := isLoading st; error := error st |}.

Definition setCurrentPage (p : Page.t) (st : AppState) : AppState :=
  {| currentPage := p; selectedProject := selectedProject st;
     isAuthenticated := isAuthenticated st; isSiteUnlocked := isSiteUnlocked st;
     content := content st; isLoading := isLoading st; error := error st |}.

Definition setSelectedProject (p : option value) (st : AppState) : AppState :=
  {| currentPage := currentPage st; selectedProject := p;
     isAuthenticated := isAuthenticated st; isSiteUnlocked := isSiteUnlocked st;
     content := content st; isLoading := isLoading st; error := error st |}.

Definition setIsAuthenticated (b : bool) (st : AppState) : AppState :=
  {| currentPage := currentPage st; selectedProject := selectedProject st;
     isAuthenticated := b; isSiteUnlocked := isSiteUnlocked st;
     content := content st; isLoading := isLoading st; error := error st |}.

Definition setIsSiteUnlocked (b : bool) (st : AppState) : AppState :=
  {| currentPage := currentPage st; selectedProject := selectedProject st;
     isAuthenticated := isAuthenticated st; isSiteUnlocked := b;
     content := content st; isLoading := isLoading st; error := error st |}.

Definition setIsLoading (b : bool) (st : AppState) : AppState :=
  {| currentPage := currentPage st; selectedProject := selectedProject st;
     isAuthenticated := isAuthenticated st; isSiteUnlocked := isSiteUnlocked st;
     content := content st; isLoading := b; error := error st |}.

Definition setError (e : option string) (st : AppState) : AppState :=
  {| currentPage := currentPage st; selectedProject := selectedProject st;
     isAuthenticated := isAuthenticated st; isSiteUnlocked := isSiteUnlocked st;
     content := content st; isLoading := isLoading st; error := e |}.

(** ** The remote store, as seen from the application *)

(** What [docRef.get()] resolves to: [doc.exists] and [doc.data()]. *)
Record DocumentSnapshot := {
  doc_exists : bool;
  doc_data : option obj;
}.

Inductive GetResult :=
  | GetRejected
  | GetResolved (doc : DocumentSnapshot).

(** Calls made on the store client. *)
Inductive StoreOp :=
  | OpGet
  | OpSet (payload : SyncDocument).

Definition isWrite (o : StoreOp) : bool :=
  match o with
  | OpSet _ => true
  | OpGet => false
  end.

Definition loadErrorMessage : string :=
  "Could not load data from the cloud. Displaying default content. Please check Firestore permissions.".

Definition projectPlaceholder : string := "https://picsum.photos/seed/project/600/400".
Definition certPlaceholder : string := "https://picsum.photos/seed/cert/600/400".

(** ** Sanitisation (lines 134-141) *)

(** [if (o.k?.startsWith('data:')) o.k = '']. *)
Definition blankInline (k : string) (o : obj) : option obj :=
  b ← startsWithData (o !! k);
  Some (if b : bool then <[k := Str ""]> o else o).

(** The callback of [.map]:
    [p => p.imageUrl?.startsWith('data:') ? { ...p, imageUrl: url } : p].
    Reading a property of [null] raises; a primitive or an array has no
    [imageUrl]. *)
Definition replaceInlineImage (url : string) (p : value) : option value :=
  match p with
  | Null => None
  | Obj m =>
      b ← startsWithData (m !! "imageUrl");
      Some (if b : bool then Obj (<["imageUrl" := Str url]> m) else p)
  | _ => Some p
  end.

(** [xs.map(cb)]: only an array has [map]. *)
Definition mapImages (url : string) (xs : value) : option value :=
  match xs with
  | Arr l => Arr <$> mapM (replaceInlineImage url) l
  | _ => None
  end.

(** [JSON.parse(JSON.stringify(state))]: on JSON values the copy is equal
    to the original and shares nothing with it. *)
Definition deepCopy (state : SyncDocument) : SyncDocument := state.

(** The body of the [try] block up to the call of [set]; [None] when an
    exception is raised, in which case nothing is written. *)
Definition sanitize (state : SyncDocument) : option SyncDocument :=
  let stateToSave := deepCopy state in
  pi1 ← blankInline "avatarUrl" (personalInfo stateToSave);
  pi2 ← blankInline "logoUrl" pi1;
  ts1 ← blankInline "bgImageUrl" (themeSettings stateToSave);
  ts2 ← blankInline "backgroundMusicUrl" ts1;
  ps ← mapImages projectPlaceholder (projects stateToSave);
  cs ← mapImages certPlaceholder (certifications stateToSave);
  Some {| personalInfo := pi2; workExperience := workExperience stateToSave;
          projects := ps; certifications := cs; skills := skills stateToSave;
          themeSettings := ts2 |}.

(** ** The component [AppContent] *)

Section App.

Variable K : Constants.

Definition basePersonalInfo (language : Language) : obj :=
  match language with VI => PERSONAL_INFO_VI K | EN => PERSONAL_INFO_EN K end.

Definition baseWorkExperience (language : Language) : value :=
  Arr (match language with VI => WORK_EXPERIENCE_VI K | EN => WORK_EXPERIENCE_EN K end).

Definition baseProjects (language : Language) : value :=
  Arr (match language with VI => PROJECTS_VI K | EN => PROJECTS_EN K end).

Definition baseCertifications (language : Language) : value :=
  Arr (match language with VI => CERTIFICATIONS_VI K | EN => CERTIFICATIONS_EN K end).

Definition baseSkills (language : Language) : value :=
  Arr (match language with VI => SKILLS_DATA_VI K | EN => SKILLS_DATA_EN K end).

(** The default bundle of a locale; the theme has a single default. *)
Definition defaults (language : Language) : SyncDocument :=
  {| personalInfo := basePersonalInfo language;
     workExperience := baseWorkExperience language;
     projects := baseProjects language;
     certifications := baseCertifications language;
     skills := baseSkills language;
     themeSettings := INITIAL_THEME_SETTINGS K |}.

(** The [useState] initialisers (lines 28-44). *)
Definition initialAppState : AppState :=
  {| currentPage := Page.Introduction;
     selectedProject := None;
     isAuthenticated := false;
     isSiteUnlocked := false;
     content :=
       {| personalInfo := PERSONAL_INFO_VI K;
          workExperience := Arr (WORK_EXPERIENCE_VI K);
          projects := Arr (PROJECTS_VI K);
          certifications := Arr (CERTIFICATIONS_VI K);
          skills := Arr (SKILLS_DATA_VI K);
          themeSettings := INITIAL_THEME_SETTINGS K |};
     isLoading := true;
     error := firebaseInitializationError K |}.

(** The effect on [language] (lines 48-62). *)
Definition languageEffect (language : Language) (d : SyncDocument) : SyncDocument :=
  match language with
  | VI =>
      {| personalInfo := objectSpread (personalInfo d) (Obj (PERSONAL_INFO_VI K));
         workExperience := Arr (WORK_EXPERIENCE_VI K);
         projects := Arr (PROJECTS_VI K);
         certifications := Arr (CERTIFICATIONS_VI K);
         skills := Arr (SKILLS_DATA_VI K);
         themeSettings := themeSettings d |}
  | EN =>
      {| personalInfo := objectSpread (personalInfo d) (Obj (PERSONAL_INFO_EN K));
         workExperience := Arr (WORK_EXPERIENCE_EN K);
         projects := Arr (PROJECTS_EN K);
         certifications := Arr (CERTIFICATIONS_EN K);
         skills := Arr (SKILLS_DATA_EN K);
         themeSettings := themeSettings d |}
  end.

(** The six setter calls of lines 98-103, for a document that exists. *)
Definition applyRemote (language : Language) (data : obj) : SyncDocument :=
  {| personalInfo :=
       objectSpread (basePersonalInfo language) (or_else (data !! "personalInfo") (Obj ∅));
     workExperience := or_else (data !! "workExperience") (baseWorkExperience language);
     projects := or_else (data !! "projects") (baseProjects language);
     certifications := or_else (data !! "certifications") (baseCertifications language);
     skills := or_else (data !! "skills") (baseSkills language);
     themeSettings :=
       objectSpread (INITIAL_THEME_SETTINGS K) (or_else (data !! "themeSettings") (Obj ∅)) |}.

(** [initialState] of lines 107-114. *)
Definition initialState : SyncDocument :=
  {| personalInfo := PERSONAL_INFO_VI K;
     workExperience := Arr (WORK_EXPERIENCE_VI K);
     projects := Arr (PROJECTS_VI K);
     certifications := Arr (CERTIFICATIONS_VI K);
     skills := Arr (SKILLS_DATA_VI K);
     themeSettings := INITIAL_THEME_SETTINGS K |}.

(** [fetchData] (lines 86-123) from the point where [docRef.get()]
    settles.  [language] is the locale captured by the closure, [r] the
    outcome of the read and [acked] whether the store acknowledges the
    initialising write.  The result is the new state and the store calls
    made. *)
Definition fetchData (language : Language) (r : GetResult) (acked : bool)
    (st : AppState) : AppState * list StoreOp :=
  let '(st1, ops) :=
    match r with
    | GetRejected => (setError (Some loadErrorMessage) st, [])
    | GetResolved doc =>
        if doc_exists doc then
          match doc_data doc with
          | Some data => (setContent (applyRemote language data) st, [])
          | None => (st, [])
          end
        else
          (if acked then st else setError (Some loadErrorMessage) st,
           [OpSet initialState])
    end in
  (setIsLoading false st1, ops).

(** The effect on [themeSettings.isPasswordProtectionEnabled]
    (lines 169-175). *)
Definition lockEffect (st : AppState) : AppState :=
  if toBoolean (themeSettings (content st) !! "isPasswordProtectionEnabled")
  then setIsSiteUnlocked false st
  else setIsSiteUnlocked true st.

(** Handlers (lines 233-257) with their return values. *)
Definition handlePageChange (page : Page.t) (st : AppState) : AppState :=
  setCurrentPage page (setSelectedProject None st).

Definition handleUnlockSite (password : string) (st : AppState) : AppState * bool :=
  if strictEqStr password (themeSettings (content st) !! "sitePassword")
  then (setIsSiteUnlocked true st, true)
  else (st, false).

Definition handleAdminLoginForUnlock (username password : string)
    (st : AppState) : AppState * bool :=
  if String.eqb username "Minh" && String.eqb password "2004"
  then (setIsSiteUnlocked true st, true)
  else (st, false).

Definition handleLogout (st : AppState) : AppState :=
  setCurrentPage Page.Introduction (setIsAuthenticated false st).

(** [onLoginSuccess] handed to the login form (line 296). *)
Definition onLoginSuccess (st : AppState) : AppState :=
  setIsAuthenticated true st.

(** [isLocked] of line 307. *)
Definition isLocked (st : AppState) : bool :=
  toBoolean (themeSettings (content st) !! "isPasswordProtectionEnabled")
  && negb (isSiteUnlocked st).

(** What [renderPage] (lines 259-301) puts on screen. *)
Inductive View :=
  | LimitedIntroduction
  | ProjectDetailView (p : value)
  | PageView (p : Page.t)
  | SettingsEditor
  | LoginForm.

Definition renderPage (st : AppState) : View :=
  if negb (isSiteUnlocked st) then LimitedIntroduction
  else match selectedProject st with
       | Some p => ProjectDetailView p
       | None =>
           match currentPage st with
           | Page.Settings => if isAuthenticated st then SettingsEditor else LoginForm
           | p => PageView p
           end
       end.






(** ** Configurations: the component in its environment *)

(** A timer armed by [setTimeout]; its callback is always the save body
    applied to [timer_args]. *)
Record Timer := {
  timer_id : nat;
  deadline : nat;
  timer_args : SyncDocument;
}.

Record Config := {
  app : AppState;
  language : Language;        (* value of the language context *)
  firestore : bool;           (* whether the store client is non-null *)
  now : nat;                  (* clock, in milliseconds *)
  timeout : option nat;       (* the variable [timeout] of the debounce closure *)
  timers : list Timer;        (* timers armed and not yet fired or cleared *)
  nextTimerId : nat;
  inFlight : list Language;   (* reads awaiting their answer, with the captured locale *)
  trace : list (nat * StoreOp); (* store calls made so far, with their time *)
}.

Definition setApp (st : AppState) (c : Config) : Config :=
  {| app := st; language := language c; firestore := firestore c; now := now c;
     timeout := timeout c; timers := timers c; nextTimerId := nextTimerId c;
     inFlight := inFlight c; trace := trace c |}.

Definition setLanguage (l : Language) (c : Config) : Config :=
  {| app := app c; language := l; firestore := firestore c; now := now c;
     timeout := timeout c; timers := timers c; nextTimerId := nextTimerId c;
     inFlight := inFlight c; trace := trace c |}.

Definition setNow (t : nat) (c : Config) : Config :=
  {| app := app c; language := language c; firestore := firestore c; now := t;
     timeout := timeout c; timers := timers c; nextTimerId := nextTimerId c;
     inFlight := inFlight c; trace := trace c |}.

Definition setTimeoutVar (v : option nat) (c : Config) : Config :=
  {| app := app c; language := language c; firestore := firestore c; now := now c;
     timeout := v; timers := timers c; nextTimerId := nextTimerId c;
     inFlight := inFlight c; trace := trace c |}.

Definition setTimers (ts : list Timer) (c : Config) : Config :=
  {| app := app c; language := language c; firestore := firestore c; now := now c;
     timeout := timeout c; timers := ts; nextTimerId := nextTimerId c;
     inFlight := inFlight c; trace := trace c |}.

Definition setInFlight (fs : list Language) (c : Config) : Config :=
  {| app := app c; language := language c; firestore := firestore c; now := now c;
     timeout := timeout c; timers := timers c; nextTimerId := nextTimerId c;
     inFlight := fs; trace := trace c |}.

Definition logOps (ops : list StoreOp) (c : Config) : Config :=
  {| app := app c; language := language c; firestore := firestore c; now := now c;
     timeout := timeout c; timers := timers c; nextTimerId := nextTimerId c;
     inFlight := inFlight c; trace := trace c ++ ((λ o, (now c, o)) <$> ops) |}.

Definition updContent (f : SyncDocument → SyncDocument) (c : Config) : Config :=
  setApp (setContent (f (content (app c))) (app c)) c.

(** *** Timers and [debounce] (lines 66-74) *)

Definition clearTimeout (i : nat) (c : Config) : Config :=
  setTimers (filter (λ t, timer_id t ≠ i) (timers c)) c.

Definition setTimeout (args : SyncDocument) (waitFor : nat) (c : Config) : nat * Config :=
  let i := nextTimerId c in
  (i,
   {| app := app c; language := language c; firestore := firestore c; now := now c;
      timeout := timeout c;
      timers := timers c ++ [{| timer_id := i; deadline := now c + waitFor; timer_args := args |}];
      nextTimerId := S i;
      inFlight := inFlight c; trace := trace c |}).

(** The function returned by [debounce(func, waitFor)], called with
    [args]. *)
Definition debounce (waitFor : nat) (args : SyncDocument) (c : Config) : Config :=
  let c1 := match timeout c with
            | Some i => clearTimeout i c
            | None => c
            end in
  let '(i, c2) := setTimeout args waitFor c1 in
  setTimeoutVar (Some i) c2.

(** The function handed to [debounce] (lines 130-146): the store call is
    made when sanitisation raises nothing; a rejected write is logged to
    the console and dropped. *)
Definition saveBody (state : SyncDocument) (c : Config) : Config :=
  if negb (firestore c) then c
  else match sanitize state with
       | Some stateToSave => logOps [OpSet stateToSave] c
       | None => c
       end.

Definition saveStateToFirestore : SyncDocument → Config → Config := debounce 2000.

(** *** Effects on configurations *)

(** The load effect (lines 77-126) up to the call of [docRef.get()]. *)
Definition loadEffect (c : Config) : Config :=
  if negb (firestore c) then setApp (setIsLoading false (app c)) c
  else setInFlight (inFlight c ++ [language c]) (logOps [OpGet] c).

(** The save effect (lines 152-165), run with the state [st] of the render
    that created it. *)
Definition saveEffectOf (st : AppState) (c : Config) : Config :=
  if isLoading st || negb (firestore c) then c
  else saveStateToFirestore (content st) c.

Definition saveEffect (c : Config) : Config := saveEffectOf (app c) c.

(** The effects that follow a render in which state changed.  [prev] is
    the state of the previous render and [fresh] tells whether one of the
    six persisted cells received a new reference.  The save effect depends
    on those cells and on [isLoading], the lock effect on the protection
    flag. *)
Definition rerender (prev : AppState) (fresh : bool) (c : Config) : Config :=
  let c1 := if fresh || negb (eqb (isLoading prev) (isLoading (app c)))
            then saveEffect c else c in
  if object_is (themeSettings (content prev) !! "isPasswordProtectionEnabled")
               (themeSettings (content (app c1)) !! "isPasswordProtectionEnabled")
  then c1
  else setApp (lockEffect (app c1)) c1.

(** *** Time *)

Definition fireTimer (c : Config) (t : Timer) : Config :=
  saveBody (timer_args t) (setNow (deadline t) c).

(** [ms] milliseconds pass: the timers that come due fire, in the order
    in which they were armed, each at its deadline. *)
Definition elapse (ms : nat) (c : Config) : Config :=
  let till := now c + ms in
  let due := filter (λ t, deadline t ≤ till) (timers c) in
  let rest := filter (λ t, ¬ deadline t ≤ till) (timers c) in
  setNow till (foldl fireTimer (setTimers rest c) due).

(** *** Events *)

Inductive Event :=
  | ChangeLocale (l : Language)
  | FetchSettled (r : GetResult) (acked : bool)
  | EditPersonalInfo (v : obj)
  | EditWorkExperience (v : value)
  | EditProjects (v : value)
  | EditCertifications (v : value)
  | EditSkills (v : value)
  | EditThemeSettings (v : obj)
  | SubmitUnlockPassword (password : string)
  | SubmitAdminLogin (username password : string)
  | LoginSucceeded
  | Logout
  | Navigate (page : Page.t)
  | SelectProject (p : option value)
  | Elapse (ms : nat).

(** Whether the answer of a read makes [fetchData] call the six setters. *)
Definition deliversData (r : GetResult) : bool :=
  match r with
  | GetResolved doc => doc_exists doc && bool_decide (is_Some (doc_data doc))
  | GetRejected => false
  end.

(** One event, followed by the renders and effects it causes.  The
    setters called in one event are applied in one render.  The editor
    events stand for calls of the setters with a newly built value. *)
Definition step (e : Event) (c : Config) : Config :=
  match e with
  | ChangeLocale l =>
      if decide (l = language c) then c
      else rerender (app c) true
             (loadEffect (updContent (languageEffect l) (setLanguage l c)))
  | FetchSettled r acked =>
      match inFlight c with
      | [] => c
      | l :: rest =>
          let '(st, ops) := fetchData l r acked (app c) in
          rerender (app c) (deliversData r) (setApp st (logOps ops (setInFlight rest c)))
      end
  | EditPersonalInfo v => rerender (app c) true (updContent (setPersonalInfo v) c)
  | EditWorkExperience v => rerender (app c) true (updContent (setWorkExperience v) c)
  | EditProjects v => rerender (app c) true (updContent (setProjects v) c)
  | EditCertifications v => rerender (app c) true (updContent (setCertifications v) c)
  | EditSkills v => rerender (app c) true (updContent (setSkills v) c)
  | EditThemeSettings v => rerender (app c) true (updContent (setThemeSettings v) c)
  | SubmitUnlockPassword password => setApp (handleUnlockSite password (app c)).1 c
  | SubmitAdminLogin username password =>
      setApp (handleAdminLoginForUnlock username password (app c)).1 c
  | LoginSucceeded => setApp (onLoginSuccess (app c)) c
  | Logout => setApp (handleLogout (app c)) c
  | Navigate page => setApp (handlePageChange page (app c)) c
  | SelectProject p => setApp (setSelectedProject p (app c)) c
  | Elapse ms => elapse ms c
  end.

Definition run (evs : list Event) (c : Config) : Config :=
  foldl (λ c e, step e c) c evs.

(** The configuration of the first render, and the first commit: every
    effect runs once with the state of that render, then the save effect
    runs again for the cells the locale effect has set. *)
Definition initialConfig (l : Language) (fs : bool) : Config :=
  {| app := initialAppState; language := l; firestore := fs; now := 0;
     timeout := None; timers := []; nextTimerId := 1; inFlight := []; trace := [] |}.

Definition mount (c : Config) : Config :=
  let c1 := updContent (languageEffect (language c)) c in
  let c2 := loadEffect c1 in
  let c3 := saveEffectOf (app c) c2 in
  let c4 := setApp (lockEffect (app c3)) c3 in
  saveEffect c4.

Definition boot (l : Language) (fs : bool) : Config := mount (initialConfig l fs).

End App.

(** ** A small instance

    Concrete constants on which the model is run in the examples below. *)

Module Sample.

Definition infoVI : obj :=
  <["name" := Str "Minh"]> (<["title" := Str "Ky su"]> (<["avatarUrl" := Str "/a.png"]> ∅)).

Definition infoEN : obj :=
  <["name" := Str "Minh"]> (<["title" := Str "Engineer"]> (<["avatarUrl" := Str "/a.png"]> ∅)).

Definition theme : obj :=
  <["isPasswordProtectionEnabled" := Bool true]>
    (<["sitePassword" := Str "abc123"]> (<["bgImageUrl" := Str ""]> ∅)).

Definition project (title image : string) : value :=
  Obj (<["id" := Num 1]> (<["title" := Str title]> (<["imageUrl" := Str image]> ∅))).

Definition K : Constants :=
  {| PERSONAL_INFO_VI := infoVI;
     WORK_EXPERIENCE_VI := [Obj (<["title" := Str "Ky su"]> ∅)];
     PROJECTS_VI := [project "Du an" "/p.png"];
     CERTIFICATIONS_VI := [project "Chung chi" "/c.png"];
     SKILLS_DATA_VI := [Obj (<["category" := Str "Ngon ngu"]> ∅)];
     PERSONAL_INFO_EN := infoEN;
     WORK_EXPERIENCE_EN := [Obj (<["title" := Str "Engineer"]> ∅)];
     PROJECTS_EN := [project "Project" "/p.png"];
     CERTIFICATIONS_EN := [project "Certificate" "/c.png"];
     SKILLS_DATA_EN := [Obj (<["category" := Str "Languages"]> ∅)];
     INITIAL_THEME_SETTINGS := theme;
     firebaseInitializationError := None |}.

(** A session that has loaded an absent document. *)
Definition loaded : Config :=
  step K (FetchSettled (GetResolved {| doc_exists := false; doc_data := None |}) true)
    (boot K VI true).

(** A state with inline payloads, under designated fields and elsewhere,
    and the payload the save body writes for it. *)
Definition dirty : SyncDocument :=
  {| personalInfo :=
       <["name" := Str "Minh"]>
         (<["bio" := Str "data:text/plain;base64,SGVsbG8="]>
            (<["avatarUrl" := Str "data:image/png;base64,AAAA"]>
               (<["logoUrl" := Str "/logo.png"]> ∅)));
     workExperience :=
       Arr [Obj (<["title" := Str "Engineer"]>
                   (<["logoUrl" := Str "data:image/png;base64,BBBB"]> ∅))];
     projects := Arr [project "A" "data:image/png;base64,CCCC"; project "B" "/b.png"];
     certifications := Arr [project "C" "data:image/png;base64,DDDD"];
     skills := Arr [];
     themeSettings := <["backgroundMusicUrl" := Str "data:audio/mpeg;base64,EEEE"]> theme |}.

Definition clean : SyncDocument :=
  {| personalInfo :=
       <["name" := Str "Minh"]>
         (<["bio" := Str "data:text/plain;base64,SGVsbG8="]>
            (<["avatarUrl" := Str ""]>
               (<["logoUrl" := Str "/logo.png"]> ∅)));
     workExperience :=
       Arr [Obj (<["title" := Str "Engineer"]>
                   (<["logoUrl" := Str "data:image/png;base64,BBBB"]> ∅))];
     projects := Arr [project "A" projectPlaceholder; project "B" "/b.png"];
     certifications := Arr [project "C" certPlaceholder];
     skills := Arr [];
     themeSettings := <["backgroundMusicUrl" := Str ""]> theme |}.

(** A burst of three edits: 500 ms and 1999 ms apart. *)
Definition firstEdit : Event := EditSkills (Arr []).

Definition moreEdits : list (nat * Event) :=
  [(500, EditProjects (Arr [project "A" "data:image/png;base64,CCCC"]));
   (1999, EditPersonalInfo infoEN)].

(** The loaded session after a switch to English: a read is pending. *)
Definition reloading : Config := step K (ChangeLocale EN) loaded.

(** A stretch of editing with pauses of various lengths. *)
Definition editing : list Event :=
  [EditSkills (Arr []); Elapse 1500; EditProjects (Arr []); Elapse 2000;
   EditThemeSettings theme; Elapse 700; SubmitUnlockPassword "abc123"; Elapse 5000].


(** Theme settings with the password protection turned off. *)
Definition themeOff : obj := <["isPasswordProtectionEnabled" := Bool false]> theme.

End Sample.

(** ** Reference definitions for the statements *)

(** The fields a remote entry contributes when it is spread into an
    object literal; nothing when the entry is absent. *)
Definition remoteFields (x : option value) : obj :=
  match x with
  | Some v => ownProps v
  | None => ∅
  end.

(** Shallow merge as the specification words it: the remote value wins
    field by field, a field the remote lacks keeps its default. *)
Definition shallowMerge (dflt remote : obj) : obj :=
  merge (λ d r, match r with Some v => Some v | None => d end) dflt remote.

(** The answers of a read: a document that exists, with its fields, and
    a document that does not. *)
Definition existing (data : obj) : GetResult :=
  GetResolved {| doc_exists := true; doc_data := Some data |}.

Definition absent : GetResult :=
  GetResolved {| doc_exists := false; doc_data := None |}.

(** A value that starts with the inline-payload marker. *)
Definition inline (x : option value) : bool :=
  match x with
  | Some (Str s) => String.prefix "data:" s
  | _ => false
  end.

(** What sanitisation leaves under a designated top-level field. *)
Definition scrubbed (x : option value) : option value :=
  if inline x then Some (Str "") else x.

Definition imageUrlOf (p : value) : option value :=
  match p with
  | Obj m => m !! "imageUrl"
  | _ => None
  end.

(** How one project or certificate is written: untouched, or with its
    inline image replaced by the placeholder. *)
Definition itemWritten (url : string) (x y : value) : Prop :=
  (inline (imageUrlOf x) = false ∧ y = x)
  ∨ (∃ m, x = Obj m ∧ inline (m !! "imageUrl") = true
          ∧ y = Obj (<["imageUrl" := Str url]> m)).

(** The declared types of the fields that sanitisation inspects: the four
    URL fields are strings when present, projects and certificates are
    arrays of objects whose [imageUrl] is a string when present. *)
Definition optString (x : option value) : Prop :=
  match x with
  | None | Some Null | Some (Str _) => True
  | Some _ => False
  end.

Definition isItem (p : value) : Prop :=
  match p with
  | Obj m => optString (m !! "imageUrl")
  | _ => False
  end.

Definition isItems (v : value) : Prop :=
  match v with
  | Arr l => Forall isItem l
  | _ => False
  end.

Definition wellTyped (d : SyncDocument) : Prop :=
  optString (personalInfo d !! "avatarUrl")
  ∧ optString (personalInfo d !! "logoUrl")
  ∧ optString (themeSettings d !! "bgImageUrl")
  ∧ optString (themeSettings d !! "backgroundMusicUrl")
  ∧ isItems (projects d)
  ∧ isItems (certifications d).

(** Replacement of a collection on load: the remote value as a whole when
    it is truthy, the default otherwise. *)
Definition wholesale (remote : option value) (dflt result : value) : Prop :=
  (∀ l, remote = Some (Arr l) → result = Arr l)
  ∧ (toBoolean remote = true → remote = Some result)
  ∧ (toBoolean remote = false → result = dflt).

(** The dependency of the lock effect. *)
Definition protection (st : AppState) : option value :=
  themeSettings (content st) !! "isPasswordProtectionEnabled".

(** The setter an editor event calls. *)
Definition editOf (e : Event) : SyncDocument → SyncDocument :=
  match e with
  | EditPersonalInfo v => setPersonalInfo v
  | EditWorkExperience v => setWorkExperience v
  | EditProjects v => setProjects v
  | EditCertifications v => setCertifications v
  | EditSkills v => setSkills v
  | EditThemeSettings v => setThemeSettings v
  | _ => λ d, d
  end.

Definition isEdit (e : Event) : bool :=
  match e with
  | EditPersonalInfo _ | EditWorkExperience _ | EditProjects _
  | EditCertifications _ | EditSkills _ | EditThemeSettings _ => true
  | _ => false
  end.

Definition isUnlockAttempt (e : Event) : bool :=
  match e with
  | SubmitUnlockPassword _ | SubmitAdminLogin _ _ => true
  | _ => false
  end.

(** A burst: each further edit comes [gap] milliseconds after the
    previous one. *)
Fixpoint burst (K : Constants) (rest : list (nat * Event)) (c : Config) : Config :=
  match rest with
  | [] => c
  | (gap, e) :: rest' => burst K rest' (step K e (step K (Elapse gap) c))
  end.

Definition reachable (K : Constants) (c : Config) : Prop :=
  ∃ l fs evs, c = run K evs (boot K l fs).

(** Every armed timer is the one the debounce closure remembers. *)
Definition timersOwned (c : Config) : Prop :=
  Forall (λ t, timeout c = Some (timer_id t)) (timers c).

(** While nobody has unlocked, the flag mirrors the protection setting. *)
Definition lockFollows (st : AppState) : Prop :=
  isSiteUnlocked st = negb (toBoolean (protection st)).

(** With protection off the site is unlocked. *)
Definition openWhenOff (st : AppState) : Prop :=
  toBoolean (protection st) = false → isSiteUnlocked st = true.

(** Without a store client nothing is ever read, written or scheduled. *)
Definition localOnly (c : Config) : Prop :=
  firestore c = false ∧ trace c = [] ∧ inFlight c = [] ∧ timers c = []
  ∧ isLoading (app c) = false.

(** The only timer armed is the one of a save scheduled now: it is due
    2000 ms from now and carries the six values as they are now. *)
Definition pendingSave (c : Config) : Prop :=
  ∃ i, timers c = [{| timer_id := i; deadline := now c + 2000;
                      timer_args := content (app c) |}]
       ∧ timeout c = Some i.

(** The save effect is not gated: there is a store client and loading is
    over. *)
Definition saving (c : Config) : Prop :=
  firestore c = true ∧ isLoading (app c) = false.

(** The configuration [c] with the lock flag set to [b]. *)
Definition relock (b : bool) (c : Config) : Config :=
  setApp (setIsSiteUnlocked b (app c)) c.

(** ** Reference definitions for the further properties *)

(** An item on which the callback of [.map] raises nothing. *)
Definition readable (p : value) : Prop :=
  match p with
  | Null => False
  | Obj m => optString (m !! "imageUrl")
  | _ => True
  end.

Definition mappable (v : value) : Prop :=
  match v with
  | Arr l => Forall readable l
  | _ => False
  end.

(** The states on which the save body raises nothing. *)
Definition sanitizable (d : SyncDocument) : Prop :=
  optString (personalInfo d !! "avatarUrl")
  ∧ optString (personalInfo d !! "logoUrl")
  ∧ optString (themeSettings d !! "bgImageUrl")
  ∧ optString (themeSettings d !! "backgroundMusicUrl")
  ∧ mappable (projects d)
  ∧ mappable (certifications d).

Definition itemsClean (v : value) : Prop :=
  match v with
  | Arr l => Forall (λ y, inline (imageUrlOf y) = false) l
  | _ => True
  end.

(** No designated field holds an inline payload. *)
Definition inlineFree (d : SyncDocument) : Prop :=
  inline (personalInfo d !! "avatarUrl") = false
  ∧ inline (personalInfo d !! "logoUrl") = false
  ∧ inline (themeSettings d !! "bgImageUrl") = false
  ∧ inline (themeSettings d !! "backgroundMusicUrl") = false
  ∧ itemsClean (projects d)
  ∧ itemsClean (certifications d).

(** Two items with the same fields; an item that is not an object is
    the same item. *)
Definition sameKeys (x y : value) : Prop :=
  match x, y with
  | Obj m, Obj m' => dom m' = dom m
  | _, _ => y = x
  end.

(** A store call a session may have made: a read, the write of the
    bootstrap bundle, or the write of a state that sanitisation leaves as
    it is. *)
Definition acceptable (K : Constants) (o : StoreOp) : Prop :=
  match o with
  | OpGet => True
  | OpSet p => p = initialState K ∨ sanitize p = Some p
  end.

(** A log entry that is such a write. *)
Definition bootstrapOrSanitised (K : Constants) (x : nat * StoreOp) : Prop :=
  ∃ p, x.2 = OpSet p ∧ (p = initialState K ∨ sanitize p = Some p).

(** A property value that is not an array or an object: the values
    [Object.is] compares by value. *)
Definition primitive (x : option value) : Prop :=
  match x with
  | Some (Arr _) | Some (Obj _) => False
  | _ => True
  end.

(** The object literal of lines 156-163 (and 107-114) as a JavaScript
    object: the fields of the document once the payload has been written,
    the store returning what was last set. *)
Definition documentOf (p : SyncDocument) : obj :=
  <["personalInfo" := Obj (personalInfo p)]>
    (<["workExperience" := workExperience p]>
       (<["projects" := projects p]>
          (<["certifications" := certifications p]>
             (<["skills" := skills p]>
                (<["themeSettings" := Obj (themeSettings p)]> ∅))))).

(** The events on which a read is issued. *)
Definition issuesRead (e : Event) (c : Config) : bool :=
  match e with
  | ChangeLocale l => bool_decide (l ≠ language c) && firestore c
  | _ => false
  end.

(** The events on which [fetchData] reaches its [catch] block: the answer
    to a pending read is a rejection, or the document is absent and the
    initialising write is rejected. *)
Definition loadFails (e : Event) (c : Config) : bool :=
  match e, inFlight c with
  | FetchSettled GetRejected _, _ :: _ => true
  | FetchSettled (GetResolved doc) acked, _ :: _ => negb (doc_exists doc) && negb acked
  | _, _ => false
  end.

Definition isChangeLocale (e : Event) : bool :=
  match e with
  | ChangeLocale _ => true
  | _ => false
  end.

Definition isLogin (e : Event) : bool :=
  match e with
  | LoginSucceeded => true
  | _ => false
  end.

Definition isCollectionEdit (e : Event) : bool :=
  match e with
  | EditWorkExperience _ | EditProjects _ | EditCertifications _ | EditSkills _ => true
  | _ => false
  end.

(** Times at least [gap] apart, in increasing order. *)
Fixpoint spaced (gap : nat) (ts : list nat) : Prop :=
  match ts with
  | [] => True
  | t :: rest =>
      match rest with
      | [] => True
      | u :: _ => t + gap ≤ u
      end ∧ spaced gap rest
  end.

(** The times of the writes logged so far in a stretch of a session: at
    least 2000 ms apart, none in the future, and each at least 2000 ms
    before the deadline of a timer that is armed. *)
Definition spacing (times : list nat) (c : Config) : Prop :=
  spaced 2000 times
  ∧ Forall (λ t, t ≤ now c) times
  ∧ Forall (λ tm, Forall (λ t, t + 2000 ≤ deadline tm) times) (timers c).

(** At most one timer is armed; it belongs to the debounce closure, is
    not overdue and is due within 2000 ms. *)
Definition timerSane (c : Config) : Prop :=
  timersOwned c
  ∧ length (timers c) ≤ 1
  ∧ Forall (λ t, now c < deadline t ∧ deadline t ≤ now c + 2000) (timers c).


(** The state of the render that is committed right after an event, when
    the setters the event has called are applied and before the effects of
    that render run.  A switch of locale changes the context value only,
    and the passing of time fires timers, which set no state; the
    handlers are followed by no effect, so their render is the last one. *)
Definition firstRender (K : Constants) (e : Event) (c : Config) : AppState :=
  match e with
  | ChangeLocale _ | Elapse _ => app c
  | FetchSettled r acked =>
      match inFlight c with
      | [] => app c
      | l :: _ => (fetchData K l r acked (app c)).1
      end
  | EditPersonalInfo _ | EditWorkExperience _ | EditProjects _
  | EditCertifications _ | EditSkills _ | EditThemeSettings _ =>
      app (updContent (editOf e) c)
  | SubmitUnlockPassword _ | SubmitAdminLogin _ _ | LoginSucceeded | Logout
  | Navigate _ | SelectProject _ => app (step K e c)
  end.

(** * Properties *)

(** ** JavaScript helpers *)

Lemma lookup_objectSpread (base : obj) (v : value) (k : string) :
  objectSpread base v !! k =
    match ownProps v !! k with Some x => Some x | None => base !! k end.
Proof.
  unfold objectSpread. rewrite lookup_union.
  destruct (ownProps v !! k), (base !! k); reflexivity.
Qed.

Lemma lookup_shallowMerge (dflt remote : obj) (k : string) :
  shallowMerge dflt remote !! k =
    match remote !! k with Some x => Some x | None => dflt !! k end.
Proof.
  unfold shallowMerge. rewrite lookup_merge.
  destruct (dflt !! k), (remote !! k); reflexivity.
Qed.

Lemma objectSpread_shallowMerge (base : obj) (v : value) :
  objectSpread base v = shallowMerge base (ownProps v).
Proof.
  apply map_eq. intros k.
  rewrite lookup_objectSpread, lookup_shallowMerge. reflexivity.
Qed.

Lemma ownProps_or_else_empty (x : option value) :
  ownProps (or_else x (Obj ∅)) = remoteFields x.
Proof.
  destruct x as [v|]; [|reflexivity].
  destruct v as [|b|n|s| |]; simpl; try reflexivity.
  - destruct b; reflexivity.
  - destruct (n =? 0)%Z; reflexivity.
  - destruct s; reflexivity.
Qed.

Lemma object_is_toBoolean (x y : option value) :
  object_is x y = true → toBoolean x = toBoolean y.
Proof.
  destruct x as [[]|], y as [[]|]; simpl; try discriminate; try reflexivity.
  - intros H. apply eqb_prop in H. congruence.
  - intros H. apply Z.eqb_eq in H. congruence.
  - intros H. apply String.eqb_eq in H. congruence.
Qed.

Lemma inline_scrubbed (x : option value) : inline (scrubbed x) = false.
Proof.
  unfold scrubbed. destruct (inline x) eqn:E; [reflexivity | exact E].
Qed.

(** ** The load protocol *)

Section Load.

Variable K : Constants.

Lemma fetchData_existing (language : Language) (data : obj) (acked : bool) (st : AppState) :
  fetchData K language (existing data) acked st
  = (setIsLoading false (setContent (applyRemote K language data) st), []).
Proof. reflexivity. Qed.

(** C1.  For an existing remote document [data], what [fetchData] stores
    as PersonalInfo is the shallow merge of the locale's default
    PersonalInfo with [data.personalInfo], and as ThemeSettings the shallow
    merge of the default theme with [data.themeSettings]: under every key
    the remote field is found unchanged when the remote entry has it, and
    the default otherwise. *)
Theorem fetchData_merges_over_defaults
    (language : Language) (data : obj) (acked : bool) (st : AppState) :
  let loaded := content (fetchData K language (existing data) acked st).1 in
  personalInfo loaded
    = shallowMerge (basePersonalInfo K language) (remoteFields (data !! "personalInfo"))
  ∧ themeSettings loaded
    = shallowMerge (INITIAL_THEME_SETTINGS K) (remoteFields (data !! "themeSettings"))
  ∧ (∀ k, personalInfo loaded !! k =
            match remoteFields (data !! "personalInfo") !! k with
            | Some v => Some v
            | None => basePersonalInfo K language !! k
            end)
  ∧ (∀ k, themeSettings loaded !! k =
            match remoteFields (data !! "themeSettings") !! k with
            | Some v => Some v
            | None => INITIAL_THEME_SETTINGS K !! k
            end).
Proof.
  rewrite fetchData_existing. cbn [fst content setIsLoading setContent applyRemote
    personalInfo themeSettings].
  rewrite !objectSpread_shallowMerge, !ownProps_or_else_empty.
  repeat split; intros; try reflexivity; apply lookup_shallowMerge.
Qed.

Lemma or_else_wholesale (remote : option value) (dflt : value) :
  wholesale remote dflt (or_else remote dflt).
Proof.
  unfold wholesale, or_else. repeat split.
  - intros l ->. reflexivity.
  - destruct remote as [v|]; simpl; [|discriminate]. intros ->. reflexivity.
  - destruct remote as [v|]; simpl; [|reflexivity]. intros ->. reflexivity.
Qed.

(** C6, as the code has it.  On load each of the four collections becomes
    the remote value as a whole whenever that value is truthy, which every
    array is, the empty one included; the locale default is used only when
    the remote entry is absent or falsy.  Nothing is merged. *)
Theorem fetchData_replaces_collections
    (language : Language) (data : obj) (acked : bool) (st : AppState) :
  let loaded := content (fetchData K language (existing data) acked st).1 in
  wholesale (data !! "workExperience") (baseWorkExperience K language) (workExperience loaded)
  ∧ wholesale (data !! "projects") (baseProjects K language) (projects loaded)
  ∧ wholesale (data !! "certifications") (baseCertifications K language) (certifications loaded)
  ∧ wholesale (data !! "skills") (baseSkills K language) (skills loaded).
Proof.
  rewrite fetchData_existing. cbn [fst content setIsLoading setContent applyRemote
    workExperience projects certifications skills].
  repeat split; apply or_else_wholesale.
Qed.

End Load.

(** C6 as the specification states it fails on an empty array: a remote
    collection that is present and empty is kept, and the non-empty locale
    default is not used. *)
Lemma fetchData_keeps_empty_remote_collection :
  let data : obj := <["workExperience" := Arr []]> ∅ in
  let loaded :=
    content (fetchData Sample.K VI (existing data) true (initialAppState Sample.K)).1 in
  data !! "workExperience" = Some (Arr [])
  ∧ workExperience loaded = Arr []
  ∧ workExperience loaded ≠ baseWorkExperience Sample.K VI.
Proof.
  repeat split. discriminate.
Qed.

(** ** Frame lemmas for effects *)

Section Frames.

Lemma debounce_frame (w : nat) (args : SyncDocument) (c : Config) :
  app (debounce w args c) = app c
  ∧ trace (debounce w args c) = trace c
  ∧ now (debounce w args c) = now c
  ∧ firestore (debounce w args c) = firestore c
  ∧ language (debounce w args c) = language c
  ∧ inFlight (debounce w args c) = inFlight c.
Proof. unfold debounce. destruct (timeout c); repeat split. Qed.

Lemma saveEffectOf_frame (st : AppState) (c : Config) :
  app (saveEffectOf st c) = app c
  ∧ trace (saveEffectOf st c) = trace c
  ∧ now (saveEffectOf st c) = now c
  ∧ firestore (saveEffectOf st c) = firestore c
  ∧ language (saveEffectOf st c) = language c
  ∧ inFlight (saveEffectOf st c) = inFlight c.
Proof.
  unfold saveEffectOf, saveStateToFirestore.
  destruct (isLoading st || negb (firestore c)); [repeat split | apply debounce_frame].
Qed.

Lemma saveEffectOf_local (st : AppState) (c : Config) :
  firestore c = false → saveEffectOf st c = c.
Proof. intros H. unfold saveEffectOf. rewrite H, orb_true_r. reflexivity. Qed.

Lemma lockEffect_frame (st : AppState) :
  content (lockEffect st) = content st
  ∧ isLoading (lockEffect st) = isLoading st
  ∧ error (lockEffect st) = error st
  ∧ isAuthenticated (lockEffect st) = isAuthenticated st
  ∧ isSiteUnlocked (lockEffect st)
    = negb (toBoolean (themeSettings (content st) !! "isPasswordProtectionEnabled")).
Proof. unfold lockEffect. destruct (toBoolean _); repeat split. Qed.

(** After a render the state is the committed one, up to the lock flag the
    lock effect may have set; the store log, the clock and the reads in
    flight are as before. *)
Lemma rerender_frame (prev : AppState) (fresh : bool) (c : Config) :
  app (rerender prev fresh c)
  = (if object_is (themeSettings (content prev) !! "isPasswordProtectionEnabled")
                  (themeSettings (content (app c)) !! "isPasswordProtectionEnabled")
     then app c else lockEffect (app c))
  ∧ trace (rerender prev fresh c) = trace c
  ∧ now (rerender prev fresh c) = now c
  ∧ firestore (rerender prev fresh c) = firestore c
  ∧ language (rerender prev fresh c) = language c
  ∧ inFlight (rerender prev fresh c) = inFlight c.
Proof.
  unfold rerender, saveEffect.
  set (c1 := if fresh || negb (eqb (isLoading prev) (isLoading (app c)))
             then saveEffectOf (app c) c else c).
  assert (H : app c1 = app c ∧ trace c1 = trace c ∧ now c1 = now c
              ∧ firestore c1 = firestore c ∧ language c1 = language c
              ∧ inFlight c1 = inFlight c).
  { subst c1. destruct (fresh || _); [apply saveEffectOf_frame | repeat split]. }
  destruct H as (Ha & Ht & Hn & Hf & Hl & Hi). rewrite Ha.
  destruct (object_is _ _); cbn; repeat split; assumption.
Qed.

Lemma rerender_content (prev : AppState) (fresh : bool) (c : Config) :
  content (app (rerender prev fresh c)) = content (app c)
  ∧ isLoading (app (rerender prev fresh c)) = isLoading (app c)
  ∧ error (app (rerender prev fresh c)) = error (app c)
  ∧ isAuthenticated (app (rerender prev fresh c)) = isAuthenticated (app c).
Proof.
  destruct (rerender_frame prev fresh c) as (-> & _).
  destruct (object_is _ _); [repeat split|].
  destruct (lockEffect_frame (app c)) as (? & ? & ? & ? & _). repeat split; assumption.
Qed.


Lemma loadEffect_content (c : Config) : content (app (loadEffect c)) = content (app c).
Proof. unfold loadEffect. destruct (negb (firestore c)); reflexivity. Qed.

Lemma timersOwned_clear (c : Config) (i : nat) :
  timersOwned c → timeout c = Some i → filter (λ t, timer_id t ≠ i) (timers c) = [].
Proof.
  unfold timersOwned. intros H E. induction H as [|t ts Ht _ IH]; [reflexivity|].
  rewrite filter_cons. destruct (decide (timer_id t ≠ i)) as [Hne|_]; [|exact IH].
  rewrite E in Ht. injection Ht as ->. contradiction.
Qed.

Lemma timersOwned_none (c : Config) : timersOwned c → timeout c = None → timers c = [].
Proof.
  unfold timersOwned. intros H E. destruct H as [|t ts Ht _]; [reflexivity|].
  rewrite E in Ht. discriminate.
Qed.

(** A call of the debounced function clears the timer it armed before and
    arms a new one: afterwards that one is the only timer. *)
Lemma debounce_arms (w : nat) (args : SyncDocument) (c : Config) :
  timersOwned c →
  timers (debounce w args c)
  = [{| timer_id := nextTimerId c; deadline := now c + w; timer_args := args |}]
  ∧ timeout (debounce w args c) = Some (nextTimerId c).
Proof.
  intros H. unfold debounce. destruct (timeout c) as [i|] eqn:E.
  - cbn. rewrite (timersOwned_clear c i H E). split; reflexivity.
  - cbn. rewrite (timersOwned_none c H E). split; reflexivity.
Qed.

End Frames.

(** ** Locale switch, bootstrap and failure of the store *)

Section Sessions.

Variable K : Constants.

Lemma languageEffect_collections (l : Language) (d : SyncDocument) :
  workExperience (languageEffect K l d) = baseWorkExperience K l
  ∧ projects (languageEffect K l d) = baseProjects K l
  ∧ certifications (languageEffect K l d) = baseCertifications K l
  ∧ skills (languageEffect K l d) = baseSkills K l.
Proof. destruct l; repeat split. Qed.

Lemma step_ChangeLocale (c : Config) (l : Language) :
  l ≠ language c →
  step K (ChangeLocale l) c
  = rerender (app c) true (loadEffect (updContent (languageEffect K l) (setLanguage l c))).
Proof. intros H. cbn [step]. destruct (decide (l = language c)); [contradiction | reflexivity]. Qed.

Lemma loadEffect_online (c : Config) :
  firestore c = true →
  loadEffect c = setInFlight (inFlight c ++ [language c]) (logOps [OpGet] c).
Proof. intros H. unfold loadEffect. rewrite H. reflexivity. Qed.

Lemma step_FetchSettled_existing (c : Config) (l : Language) (rest : list Language)
    (data : obj) (acked : bool) :
  inFlight c = l :: rest →
  content (app (step K (FetchSettled (existing data) acked) c)) = applyRemote K l data.
Proof.
  intros H. cbn [step]. rewrite H, fetchData_existing.
  match goal with |- content (app (rerender ?p ?f ?x)) = _ =>
    destruct (rerender_content p f x) as (-> & _) end.
  reflexivity.
Qed.

(** C7.  A switch to another locale sets the four collections to the new
    locale's defaults, whatever the state held before, remote values
    included.  Remote values come back only through a new load cycle: with
    a store client the switch issues one read for the new locale, and when
    that read delivers an existing document the state becomes the document
    laid over the new locale's defaults. *)
Theorem locale_switch_resets_collections (c : Config) (l : Language) :
  l ≠ language c →
  let c' := step K (ChangeLocale l) c in
  (workExperience (content (app c')) = baseWorkExperience K l
   ∧ projects (content (app c')) = baseProjects K l
   ∧ certifications (content (app c')) = baseCertifications K l
   ∧ skills (content (app c')) = baseSkills K l)
  ∧ (firestore c = true →
     inFlight c' = inFlight c ++ [l] ∧ trace c' = trace c ++ [(now c, OpGet)])
  ∧ (firestore c = true → inFlight c = [] →
     ∀ data acked,
       content (app (step K (FetchSettled (existing data) acked) c')) = applyRemote K l data).
Proof.
  intros Hl c'.
  assert (Hon : firestore c = true →
                inFlight c' = inFlight c ++ [l] ∧ trace c' = trace c ++ [(now c, OpGet)]).
  { intros Hf. subst c'. rewrite (step_ChangeLocale _ _ Hl).
    match goal with |- context [rerender ?p ?f ?x] =>
      destruct (rerender_frame p f x) as (_ & -> & _ & _ & _ & ->) end.
    rewrite loadEffect_online by exact Hf. split; reflexivity. }
  split; [|split].
  - subst c'. rewrite (step_ChangeLocale _ _ Hl).
    match goal with |- context [rerender ?p ?f ?x] =>
      destruct (rerender_content p f x) as (-> & _) end.
    rewrite loadEffect_content. apply languageEffect_collections.
  - exact Hon.
  - intros Hf He data acked. destruct (Hon Hf) as (Hi & _). rewrite He in Hi.
    apply (step_FetchSettled_existing _ l []). exact Hi.
Qed.

Lemma objectSpread_same_fields (prev dflt : obj) :
  dom prev ⊆ dom dflt → objectSpread prev (Obj dflt) = dflt.
Proof.
  intros H. apply map_eq. intros k. rewrite lookup_objectSpread. cbn [ownProps].
  destruct (dflt !! k) eqn:E; [reflexivity|].
  apply not_elem_of_dom. apply not_elem_of_dom in E. set_solver.
Qed.

Lemma languageEffect_initial (l : Language) :
  dom (PERSONAL_INFO_VI K) ⊆ dom (basePersonalInfo K l) →
  languageEffect K l (content (initialAppState K)) = defaults K l.
Proof.
  intros H. destruct l; cbn [languageEffect initialAppState content personalInfo themeSettings];
    unfold defaults; cbn [basePersonalInfo baseWorkExperience baseProjects
      baseCertifications baseSkills]; cbn [basePersonalInfo] in H;
    rewrite (objectSpread_same_fields _ _ H); reflexivity.
Qed.

Lemma boot_content (l : Language) (fs : bool) :
  content (app (boot K l fs)) = languageEffect K l (content (initialAppState K)).
Proof.
  unfold boot, mount, saveEffect.
  match goal with |- content (app (saveEffectOf ?s ?x)) = _ =>
    destruct (saveEffectOf_frame s x) as (-> & _) end.
  cbn [app setApp].
  match goal with |- content (lockEffect ?s) = _ =>
    destruct (lockEffect_frame s) as (-> & _) end.
  match goal with |- content (app (saveEffectOf ?s ?x)) = _ =>
    destruct (saveEffectOf_frame s x) as (-> & _) end.
  rewrite loadEffect_content. reflexivity.
Qed.

Lemma saveEffectOf_loading (st : AppState) (c : Config) :
  isLoading st = true → saveEffectOf st c = c.
Proof. intros H. unfold saveEffectOf. rewrite H. reflexivity. Qed.

(** The first commit with a store client: one read issued, loading still
    in progress, no timer armed. *)
Lemma boot_online (l : Language) :
  trace (boot K l true) = [(0, OpGet)]
  ∧ inFlight (boot K l true) = [l]
  ∧ isLoading (app (boot K l true)) = true
  ∧ now (boot K l true) = 0
  ∧ timers (boot K l true) = []
  ∧ firestore (boot K l true) = true.
Proof.
  unfold boot, mount, saveEffect.
  rewrite (saveEffectOf_loading (app (initialConfig K l true))) by reflexivity.
  rewrite loadEffect_online by reflexivity.
  rewrite saveEffectOf_loading.
  - cbn [setApp trace inFlight app now timers firestore]. unfold lockEffect.
    destruct (toBoolean _); repeat split.
  - cbn [setApp app]. unfold lockEffect. destruct (toBoolean _); reflexivity.
Qed.

Lemma step_FetchSettled_absent (c : Config) (l : Language) (rest : list Language)
    (data : option obj) (acked : bool) :
  inFlight c = l :: rest →
  let c' := step K (FetchSettled (GetResolved {| doc_exists := false; doc_data := data |}) acked) c in
  content (app c') = content (app c)
  ∧ trace c' = trace c ++ [(now c, OpSet (initialState K))]
  ∧ isLoading (app c') = false.
Proof.
  intros H c'. subst c'. cbn [step]. rewrite H. cbn [fetchData doc_exists].
  match goal with |- context [rerender ?p ?f ?x] =>
    destruct (rerender_content p f x) as (-> & -> & _);
    destruct (rerender_frame p f x) as (_ & -> & _) end.
  destruct acked; repeat split.
Qed.

(** When a render runs the save effect ungated, a save is pending
    afterwards. *)
Lemma rerender_saves (prev : AppState) (fresh : bool) (c : Config) :
  fresh || negb (eqb (isLoading prev) (isLoading (app c))) = true →
  saving c → timersOwned c → pendingSave (rerender prev fresh c).
Proof.
  intros Hrun (Hf & Hl) Ho.
  destruct (rerender_frame prev fresh c) as (_ & _ & Hn & _).
  destruct (rerender_content prev fresh c) as (Hc & _).
  assert (Hs : saveEffect c = debounce 2000 (content (app c)) c).
  { unfold saveEffect, saveEffectOf, saveStateToFirestore. rewrite Hl, Hf. reflexivity. }
  assert (Ht : timers (rerender prev fresh c) = timers (saveEffect c)
               ∧ timeout (rerender prev fresh c) = timeout (saveEffect c)).
  { unfold rerender. rewrite Hrun. destruct (object_is _ _); split; reflexivity. }
  destruct Ht as (Htm & Hto).
  destruct (debounce_arms 2000 (content (app c)) c Ho) as (Ha & Hb).
  exists (nextTimerId c). rewrite Htm, Hto, Hs, Hn, Hc. split; [exact Ha | exact Hb].
Qed.

(** C5, as the code has it.  With a store client, a first load under
    locale [l] that finds no document leaves the six values as the locale
    effect set them, which is the default bundle of [l] when the two
    locales' PersonalInfo constants have the same fields.  The load makes
    exactly two store calls, the read and one write, and the payload of
    the write is the Vietnamese default bundle whatever [l] is.  Loading
    is then complete, and its completion has armed the debounced save of
    the six values. *)
Theorem load_of_absent_document_bootstraps
    (l : Language) (data : option obj) (acked : bool) :
  let c0 := boot K l true in
  let c1 := step K (FetchSettled (GetResolved {| doc_exists := false; doc_data := data |}) acked) c0 in
  content (app c1) = content (app c0)
  ∧ (dom (PERSONAL_INFO_VI K) ⊆ dom (basePersonalInfo K l) → content (app c1) = defaults K l)
  ∧ trace c1 = [(0, OpGet); (0, OpSet (defaults K VI))]
  ∧ isLoading (app c1) = false
  ∧ pendingSave c1.
Proof.
  intros c0 c1.
  destruct (boot_online l) as (Ht & Hi & Hld & Hn & Htm & Hfs).
  destruct (step_FetchSettled_absent c0 l [] data acked Hi) as (Hc & Ht' & Hl).
  fold c1 in Hc, Ht', Hl. fold c0 in Ht, Hi, Hld, Hn, Htm, Hfs.
  split; [exact Hc|]. split; [|split; [|split; [exact Hl|]]].
  - intros Hdom. rewrite Hc. subst c0. rewrite boot_content.
    apply languageEffect_initial, Hdom.
  - rewrite Ht', Ht, Hn. reflexivity.
  - subst c1. cbn [step]. rewrite Hi. cbn [fetchData doc_exists].
    apply rerender_saves.
    + cbn [setApp app setIsLoading isLoading]. rewrite Hld. reflexivity.
    + split; [exact Hfs|]. destruct acked; reflexivity.
    + unfold timersOwned. cbn [setApp logOps setInFlight timers]. rewrite Htm. constructor.
Qed.

Lemma boot_localOnly (l : Language) : localOnly (boot K l false).
Proof.
  unfold boot, mount, saveEffect.
  rewrite (saveEffectOf_loading (app (initialConfig K l false))) by reflexivity.
  rewrite saveEffectOf_local by reflexivity.
  unfold localOnly, loadEffect. cbn [initialConfig updContent setApp firestore negb
    trace inFlight timers app].
  unfold lockEffect. destruct (toBoolean _); repeat split.
Qed.





End Sessions.

(** ** Time leaves the component state alone *)

Lemma saveBody_setApp (st : AppState) (args : SyncDocument) (c : Config) :
  saveBody args (setApp st c) = setApp st (saveBody args c).
Proof.
  unfold saveBody. cbn [setApp firestore].
  destruct (negb (firestore c)); [reflexivity|].
  destruct (sanitize args); reflexivity.
Qed.

Lemma foldl_fireTimer_setApp (st : AppState) (due : list Timer) (c : Config) :
  foldl fireTimer (setApp st c) due = setApp st (foldl fireTimer c due).
Proof.
  revert c. induction due as [|t due IH]; intros c; [reflexivity|].
  cbn [foldl]. unfold fireTimer at 2 4.
  change (setNow (deadline t) (setApp st c)) with (setApp st (setNow (deadline t) c)).
  rewrite saveBody_setApp. apply IH.
Qed.

Lemma elapse_setApp (st : AppState) (ms : nat) (c : Config) :
  elapse ms (setApp st c) = setApp st (elapse ms c).
Proof.
  unfold elapse. cbn [setApp now timers].
  change (setTimers ?r (setApp st c)) with (setApp st (setTimers r c)).
  rewrite foldl_fireTimer_setApp. reflexivity.
Qed.

Lemma setApp_app (c : Config) : setApp (app c) c = c.
Proof. destruct c; reflexivity. Qed.

Lemma elapse_app (ms : nat) (c : Config) : app (elapse ms c) = app c.
Proof. rewrite <- (setApp_app c) at 1. rewrite elapse_setApp. reflexivity. Qed.

(** ** The lock *)

Section Lock.

Variable K : Constants.

Lemma lockFollows_openWhenOff (st : AppState) : lockFollows st → openWhenOff st.
Proof. unfold lockFollows, openWhenOff. intros -> ->. reflexivity. Qed.

Lemma rerender_lock (prev : AppState) (fresh : bool) (c : Config) :
  isSiteUnlocked (app c) = isSiteUnlocked prev →
  (lockFollows prev → lockFollows (app (rerender prev fresh c)))
  ∧ (openWhenOff prev → openWhenOff (app (rerender prev fresh c))).
Proof.
  intros Hs. destruct (rerender_frame prev fresh c) as (-> & _).
  fold (protection prev). fold (protection (app c)).
  destruct (object_is (protection prev) (protection (app c))) eqn:E.
  - apply object_is_toBoolean in E. unfold lockFollows, openWhenOff.
    rewrite Hs, <- E. split; intros H; exact H.
  - destruct (lockEffect_frame (app c)) as (Hc & _ & _ & _ & Hu).
    unfold lockFollows, openWhenOff, protection. rewrite Hc, Hu.
    split; intros _; [reflexivity|]. intros ->. reflexivity.
Qed.

Lemma fetchData_flags (l : Language) (r : GetResult) (acked : bool) (st : AppState) :
  isSiteUnlocked (fetchData K l r acked st).1 = isSiteUnlocked st
  ∧ isAuthenticated (fetchData K l r acked st).1 = isAuthenticated st.
Proof.
  unfold fetchData. destruct r as [|doc]; [split; reflexivity|].
  destruct (doc_exists doc); [destruct (doc_data doc)|destruct acked]; split; reflexivity.
Qed.

Lemma boot_lockFollows (l : Language) (fs : bool) : lockFollows (app (boot K l fs)).
Proof.
  unfold boot, mount, saveEffect.
  match goal with |- lockFollows (app (saveEffectOf ?s ?x)) =>
    destruct (saveEffectOf_frame s x) as (-> & _) end.
  cbn [setApp app]. unfold lockFollows, protection.
  match goal with |- context [lockEffect ?s] =>
    destruct (lockEffect_frame s) as (-> & _ & _ & _ & ->) end.
  reflexivity.
Qed.

(** Every event keeps [openWhenOff]; every event other than an unlock
    attempt keeps [lockFollows]. *)
Lemma step_lock (e : Event) (c : Config) :
  (isUnlockAttempt e = false → lockFollows (app c) → lockFollows (app (step K e c)))
  ∧ (openWhenOff (app c) → openWhenOff (app (step K e c))).
Proof.
  destruct e; cbn [step isUnlockAttempt];
    try (destruct (rerender_lock (app c) true (updContent (editOf (EditPersonalInfo v)) c) eq_refl);
         split; [intros _|]; assumption);
    try (split; [intros _|]; intros H; exact H).
  - destruct (decide (l = language c)); [split; [intros _|]; intros H; exact H|].
    match goal with |- context [rerender ?p ?f ?x] =>
      destruct (rerender_lock p f x) as (H1 & H2) end.
    { unfold loadEffect. destruct (negb _); reflexivity. }
    split; [intros _|]; assumption.
  - destruct (inFlight c) as [|l rest]; [split; [intros _|]; intros H; exact H|].
    destruct (fetchData K l r acked (app c)) as [st ops] eqn:E.
    match goal with |- context [rerender ?p ?f ?x] =>
      destruct (rerender_lock p f x) as (H1 & H2) end.
    { cbn [setApp app]. destruct (fetchData_flags l r acked (app c)) as (Hf & _).
      rewrite E in Hf. exact Hf. }
    split; [intros _|]; assumption.
  - destruct (rerender_lock (app c) true (updContent (setWorkExperience v) c) eq_refl).
    split; [intros _|]; assumption.
  - destruct (rerender_lock (app c) true (updContent (setProjects v) c) eq_refl).
    split; [intros _|]; assumption.
  - destruct (rerender_lock (app c) true (updContent (setCertifications v) c) eq_refl).
    split; [intros _|]; assumption.
  - destruct (rerender_lock (app c) true (updContent (setSkills v) c) eq_refl).
    split; [intros _|]; assumption.
  - destruct (rerender_lock (app c) true (updContent (setThemeSettings v) c) eq_refl).
    split; [intros _|]; assumption.
  - split; [discriminate|]. unfold handleUnlockSite, openWhenOff.
    destruct (strictEqStr _ _); cbn; [reflexivity | intros H; exact H].
  - split; [discriminate|]. unfold handleAdminLoginForUnlock, openWhenOff.
    destruct (_ && _); cbn; [reflexivity | intros H; exact H].
  - rewrite elapse_app. split; [intros _|]; intros H; exact H.
Qed.

Lemma run_lockFollows (evs : list Event) (c : Config) :
  Forall (λ e, isUnlockAttempt e = false) evs →
  lockFollows (app c) → lockFollows (app (run K evs c)).
Proof.
  revert c. induction evs as [|e evs IH]; intros c Hall H; [exact H|].
  inversion Hall; subst. cbn. apply IH; [assumption|]. apply step_lock; assumption.
Qed.

Lemma run_openWhenOff (evs : list Event) (c : Config) :
  openWhenOff (app c) → openWhenOff (app (run K evs c)).
Proof.
  revert c. induction evs as [|e evs IH]; intros c H; [exact H|].
  cbn. apply IH. apply step_lock, H.
Qed.

Lemma reachable_openWhenOff (c : Config) : reachable K c → openWhenOff (app c).
Proof.
  intros (l & fs & evs & ->). apply run_openWhenOff, lockFollows_openWhenOff, boot_lockFollows.
Qed.

Lemma strictEqStr_true (s : string) (x : option value) :
  strictEqStr s x = true ↔ x = Some (Str s).
Proof.
  unfold strictEqStr. destruct x as [[]|]; try (split; [discriminate|congruence]).
  rewrite String.eqb_eq. split; congruence.
Qed.

(** C2.  The lock as a state machine.  (1) In a session in which nobody
    has submitted a password or admin credentials, protection being on
    means the site is locked.  (2) Submitting the string stored as
    [sitePassword] returns true and unlocks.  (3) Submitting anything else
    returns false and changes nothing.  (4) In any state a session can
    reach, a theme whose protection flag is off leaves the site unlocked. *)
Theorem lock_state_machine :
  (∀ l fs evs, Forall (λ e, isUnlockAttempt e = false) evs →
     let st := app (run K evs (boot K l fs)) in
     toBoolean (protection st) = true → isSiteUnlocked st = false ∧ isLocked st = true)
  ∧ (∀ st password,
       themeSettings (content st) !! "sitePassword" = Some (Str password) →
       (handleUnlockSite password st).2 = true
       ∧ isSiteUnlocked (handleUnlockSite password st).1 = true
       ∧ isLocked (handleUnlockSite password st).1 = false)
  ∧ (∀ st password,
       themeSettings (content st) !! "sitePassword" ≠ Some (Str password) →
       handleUnlockSite password st = (st, false))
  ∧ (∀ c v, reachable K c → toBoolean (v !! "isPasswordProtectionEnabled") = false →
       let st' := app (step K (EditThemeSettings v) c) in
       isSiteUnlocked st' = true ∧ isLocked st' = false).
Proof.
  split; [|split; [|split]].
  - intros l fs evs Hall st Hon.
    pose proof (run_lockFollows evs _ Hall (boot_lockFollows l fs)) as H.
    fold st in H. unfold lockFollows in H. unfold isLocked. fold (protection st).
    rewrite H, Hon. split; reflexivity.
  - intros st password H. apply strictEqStr_true in H.
    unfold handleUnlockSite. rewrite H. cbn [fst snd]. unfold isLocked.
    cbn [setIsSiteUnlocked isSiteUnlocked negb]. rewrite andb_false_r. repeat split.
  - intros st password H. unfold handleUnlockSite.
    destruct (strictEqStr _ _) eqn:E; [|reflexivity].
    apply strictEqStr_true in E. contradiction.
  - intros c v Hr Hoff st'.
    assert (Hp : protection st' = v !! "isPasswordProtectionEnabled").
    { subst st'. cbn [step]. unfold protection.
      match goal with |- context [rerender ?p ?f ?x] =>
        destruct (rerender_content p f x) as (-> & _) end.
      reflexivity. }
    assert (Ho : openWhenOff st').
    { subst st'. apply step_lock, reachable_openWhenOff, Hr. }
    unfold openWhenOff in Ho. rewrite Hp in Ho. specialize (Ho Hoff).
    unfold isLocked. fold (protection st'). rewrite Hp, Hoff, Ho. split; reflexivity.
Qed.

(** C9.  The admin pair unlocks and returns true without touching
    [isAuthenticated]; any other pair returns false and changes nothing;
    the login form's success callback sets [isAuthenticated] and leaves
    the lock as it is. *)
Theorem admin_unlock_and_login_are_separate :
  (∀ st, handleAdminLoginForUnlock "Minh" "2004" st = (setIsSiteUnlocked true st, true))
  ∧ (∀ c, let st' := app (step K (SubmitAdminLogin "Minh" "2004") c) in
          isSiteUnlocked st' = true ∧ isLocked st' = false
          ∧ isAuthenticated st' = isAuthenticated (app c))
  ∧ (∀ st username password,
       (username, password) ≠ ("Minh", "2004") →
       handleAdminLoginForUnlock username password st = (st, false))
  ∧ (∀ c, let st' := app (step K LoginSucceeded c) in
          isAuthenticated st' = true
          ∧ isSiteUnlocked st' = isSiteUnlocked (app c)
          ∧ isLocked st' = isLocked (app c)).
Proof.
  split; [|split; [|split]].
  - reflexivity.
  - intros c st'. subst st'. cbn [step handleAdminLoginForUnlock String.eqb Ascii.eqb
      Bool.eqb andb fst setApp app]. unfold isLocked.
    cbn [setIsSiteUnlocked isSiteUnlocked negb]. rewrite andb_false_r. repeat split.
  - intros st username password H. unfold handleAdminLoginForUnlock.
    destruct (String.eqb username "Minh") eqn:E1; [|reflexivity].
    destruct (String.eqb password "2004") eqn:E2; [|reflexivity].
    apply String.eqb_eq in E1, E2. subst. contradiction.
  - intros c st'. repeat split.
Qed.

(** The lock flag is never read by what reaches the store: a session
    run from a configuration with another flag goes through the same
    configurations up to that flag. *)
Lemma debounce_setApp (st : AppState) (w : nat) (args : SyncDocument) (c : Config) :
  debounce w args (setApp st c) = setApp st (debounce w args c).
Proof. unfold debounce. cbn [setApp timeout]. destruct (timeout c); reflexivity. Qed.

Lemma setIsSiteUnlocked_id (st : AppState) : setIsSiteUnlocked (isSiteUnlocked st) st = st.
Proof. destruct st; reflexivity. Qed.

Lemma relock_relock (b b' : bool) (c : Config) : relock b (relock b' c) = relock b c.
Proof. reflexivity. Qed.

Lemma relock_id (c : Config) : relock (isSiteUnlocked (app c)) c = c.
Proof. unfold relock. rewrite setIsSiteUnlocked_id. apply setApp_app. Qed.

Lemma saveEffect_relock (b : bool) (c : Config) :
  saveEffect (relock b c) = relock b (saveEffect c).
Proof.
  unfold saveEffect, saveEffectOf, relock.
  cbn [setApp app firestore setIsSiteUnlocked isLoading content].
  destruct (isLoading (app c) || negb (firestore c)); [reflexivity|].
  unfold saveStateToFirestore. rewrite debounce_setApp.
  destruct (debounce_frame 2000 (content (app c)) c) as (-> & _). reflexivity.
Qed.

Lemma lockEffect_relock (b : bool) (st : AppState) :
  lockEffect (setIsSiteUnlocked b st) = lockEffect st.
Proof.
  unfold lockEffect. cbn [setIsSiteUnlocked content].
  destruct (toBoolean _); reflexivity.
Qed.

Lemma rerender_relock (b b0 : bool) (prev : AppState) (fresh : bool) (c : Config) :
  ∃ b', rerender (setIsSiteUnlocked b0 prev) fresh (relock b c)
        = relock b' (rerender prev fresh c).
Proof.
  unfold rerender.
  change (isLoading (setIsSiteUnlocked b0 prev)) with (isLoading prev).
  change (isLoading (app (relock b c))) with (isLoading (app c)).
  change (content (setIsSiteUnlocked b0 prev)) with (content prev).
  set (c1 := if fresh || negb (eqb (isLoading prev) (isLoading (app c)))
             then saveEffect c else c).
  assert (H1 : (if fresh || negb (eqb (isLoading prev) (isLoading (app c)))
                then saveEffect (relock b c) else relock b c) = relock b c1).
  { subst c1. destruct (fresh || _); [apply saveEffect_relock | reflexivity]. }
  rewrite H1.
  change (content (app (relock b c1))) with (content (app c1)).
  destruct (object_is _ _).
  - exists b. reflexivity.
  - exists (isSiteUnlocked (lockEffect (app c1))).
    change (app (relock b c1)) with (setIsSiteUnlocked b (app c1)).
    rewrite lockEffect_relock. unfold relock. cbn [setApp app].
    rewrite setIsSiteUnlocked_id. reflexivity.
Qed.

Lemma fetchData_relock (b : bool) (l : Language) (r : GetResult) (acked : bool)
    (st : AppState) :
  fetchData K l r acked (setIsSiteUnlocked b st)
  = (setIsSiteUnlocked b (fetchData K l r acked st).1, (fetchData K l r acked st).2).
Proof.
  unfold fetchData. destruct r as [|doc]; [reflexivity|].
  destruct (doc_exists doc); [destruct (doc_data doc)|destruct acked]; reflexivity.
Qed.

Lemma step_relock (b : bool) (e : Event) (c : Config) :
  ∃ b', step K e (relock b c) = relock b' (step K e c).
Proof.
  destruct e; cbn [step].
  - change (language (relock b c)) with (language c).
    destruct (decide (l = language c)); [exists b; reflexivity|].
    change (app (relock b c)) with (setIsSiteUnlocked b (app c)).
    assert (H : loadEffect (updContent (languageEffect K l) (setLanguage l (relock b c)))
                = relock b (loadEffect (updContent (languageEffect K l) (setLanguage l c)))).
    { unfold loadEffect, relock. cbn [updContent setLanguage setApp app firestore
        setIsSiteUnlocked content]. destruct (negb (firestore c)); reflexivity. }
    rewrite H. apply rerender_relock.
  - change (inFlight (relock b c)) with (inFlight c).
    destruct (inFlight c) as [|l rest]; [exists b; reflexivity|].
    change (app (relock b c)) with (setIsSiteUnlocked b (app c)).
    rewrite fetchData_relock.
    destruct (fetchData K l r acked (app c)) as [st ops]. cbn [fst snd].
    apply (rerender_relock b b (app c) (deliversData r)
             (setApp st (logOps ops (setInFlight rest c)))).
  - apply (rerender_relock b b (app c) true (updContent (setPersonalInfo v) c)).
  - apply (rerender_relock b b (app c) true (updContent (setWorkExperience v) c)).
  - apply (rerender_relock b b (app c) true (updContent (setProjects v) c)).
  - apply (rerender_relock b b (app c) true (updContent (setCertifications v) c)).
  - apply (rerender_relock b b (app c) true (updContent (setSkills v) c)).
  - apply (rerender_relock b b (app c) true (updContent (setThemeSettings v) c)).
  - unfold handleUnlockSite. change (content (app (relock b c))) with (content (app c)).
    destruct (strictEqStr _ _); cbn [fst]; [exists true | exists b]; reflexivity.
  - unfold handleAdminLoginForUnlock.
    destruct (_ && _); cbn [fst]; [exists true | exists b]; reflexivity.
  - exists b. reflexivity.
  - exists b. reflexivity.
  - exists b. reflexivity.
  - exists b. reflexivity.
  - exists b. unfold relock. rewrite elapse_setApp, elapse_app. reflexivity.
Qed.

Lemma run_relock (evs : list Event) (b : bool) (c : Config) :
  ∃ b', run K evs (relock b c) = relock b' (run K evs c).
Proof.
  revert b c. induction evs as [|e evs IH]; intros b c; [exists b; reflexivity|].
  cbn [run foldl]. destruct (step_relock b e c) as (b1 & ->). apply IH.
Qed.

(** C10.  An unlock attempt, successful or not, changes at most the lock
    flag: the six persisted values, every other state cell, the debounce
    timer and the store log are as before, and however the session goes
    on, the store log, the timers and the six values are the ones the
    session would have had without the attempt. *)
Theorem unlock_changes_only_the_lock_flag (c : Config) (e : Event) :
  isUnlockAttempt e = true →
  let c' := step K e c in
  app c' = setIsSiteUnlocked (isSiteUnlocked (app c')) (app c)
  ∧ content (app c') = content (app c)
  ∧ trace c' = trace c
  ∧ timers c' = timers c
  ∧ timeout c' = timeout c
  ∧ inFlight c' = inFlight c
  ∧ (∀ evs, trace (run K evs c') = trace (run K evs c)
            ∧ timers (run K evs c') = timers (run K evs c)
            ∧ content (app (run K evs c')) = content (app (run K evs c))).
Proof.
  intros He c'.
  assert (H : ∃ b, c' = setApp (setIsSiteUnlocked b (app c)) c).
  { subst c'. destruct e; try discriminate; cbn [step].
    - unfold handleUnlockSite. destruct (strictEqStr _ _); cbn [fst].
      + exists true. reflexivity.
      + exists (isSiteUnlocked (app c)). destruct c as [[] ]; reflexivity.
    - unfold handleAdminLoginForUnlock. destruct (_ && _); cbn [fst].
      + exists true. reflexivity.
      + exists (isSiteUnlocked (app c)). destruct c as [[] ]; reflexivity. }
  destruct H as (b & ->). repeat split.
  all: destruct (run_relock evs b c) as (b' & H); unfold relock in H; rewrite H; reflexivity.
Qed.

End Lock.

(** ** Sanitisation *)

Lemma startsWithData_inline (x : option value) (b : bool) :
  startsWithData x = Some b → b = inline x.
Proof. destruct x as [[]|]; cbn; congruence. Qed.

Lemma startsWithData_typed (x : option value) :
  optString x → startsWithData x = Some (inline x).
Proof. destruct x as [[]|]; cbn; intros H; try reflexivity; destruct H. Qed.

Lemma blankInline_lookup (k : string) (o o' : obj) :
  blankInline k o = Some o' →
  o' !! k = scrubbed (o !! k) ∧ (∀ k', k' ≠ k → o' !! k' = o !! k').
Proof.
  unfold blankInline, scrubbed. intros H.
  destruct (startsWithData (o !! k)) as [b|] eqn:E; [|discriminate].
  cbn in H. injection H as <-. apply startsWithData_inline in E. subst b.
  destruct (inline (o !! k)).
  - split; [apply lookup_insert_eq|]. intros k' Hk. apply lookup_insert_ne. congruence.
  - split; [reflexivity|]. intros k' _. reflexivity.
Qed.

Lemma blankInline_typed (k : string) (o : obj) :
  optString (o !! k) → is_Some (blankInline k o).
Proof.
  intros H. unfold blankInline. rewrite (startsWithData_typed _ H). cbn. eexists. reflexivity.
Qed.

Lemma replaceInlineImage_written (url : string) (x y : value) :
  replaceInlineImage url x = Some y → itemWritten url x y.
Proof.
  unfold itemWritten. destruct x as [|b|n|s|l|m]; cbn [replaceInlineImage imageUrlOf];
    try discriminate; try (intros H; injection H as <-; left; split; reflexivity).
  intros H. destruct (startsWithData (m !! "imageUrl")) as [b|] eqn:E; [|discriminate].
  cbn in H. injection H as <-. apply startsWithData_inline in E. subst b.
  destruct (inline (m !! "imageUrl")) eqn:Ei.
  - right. exists m. repeat split; first [exact Ei | reflexivity].
  - left. split; first [exact Ei | reflexivity].
Qed.

Lemma itemWritten_clean (url : string) (x y : value) :
  String.prefix "data:" url = false → itemWritten url x y → inline (imageUrlOf y) = false.
Proof.
  intros Hu [(H & ->)|(m & -> & _ & ->)]; [exact H|].
  cbn [imageUrlOf]. rewrite lookup_insert_eq. exact Hu.
Qed.

Lemma mapImages_written (url : string) (xs ys : value) :
  String.prefix "data:" url = false →
  mapImages url xs = Some ys →
  ∃ l l', xs = Arr l ∧ ys = Arr l'
          ∧ Forall2 (itemWritten url) l l'
          ∧ Forall (λ y, inline (imageUrlOf y) = false) l'.
Proof.
  intros Hu. destruct xs as [| | | |l|]; cbn [mapImages]; try discriminate.
  intros H. destruct (mapM (replaceInlineImage url) l) as [l'|] eqn:E; [|discriminate].
  cbn in H. injection H as <-. exists l, l'. repeat split.
  - apply mapM_Some in E. eapply Forall2_impl; [exact E|].
    intros x y. apply replaceInlineImage_written.
  - apply mapM_Some in E. induction E as [|x y l l' Hxy _ IH]; constructor; [|exact IH].
    eapply itemWritten_clean; [exact Hu|]. apply replaceInlineImage_written, Hxy.
Qed.

Lemma mapImages_typed (url : string) (xs : value) :
  isItems xs → is_Some (mapImages url xs).
Proof.
  destruct xs as [| | | |l|]; cbn [isItems mapImages]; intros H; try contradiction.
  assert (Hm : is_Some (mapM (replaceInlineImage url) l)).
  { apply mapM_is_Some. eapply Forall_impl; [exact H|].
    intros x Hx. destruct x as [| | | | |m]; try contradiction.
    unfold compose, replaceInlineImage. cbn [isItem] in Hx.
    rewrite (startsWithData_typed _ Hx). cbn. eexists. reflexivity. }
  destruct Hm as [l' ->]. cbn. eexists. reflexivity.
Qed.

(** Sanitisation raises nothing on a state of the declared types. *)
Lemma sanitize_typed (d : SyncDocument) : wellTyped d → is_Some (sanitize d).
Proof.
  intros (H1 & H2 & H3 & H4 & H5 & H6). unfold sanitize, deepCopy.
  destruct (blankInline_typed _ _ H1) as [pi1 E1]. rewrite E1. cbn [mbind option_bind].
  assert (H2' : optString (pi1 !! "logoUrl")).
  { destruct (blankInline_lookup _ _ _ E1) as (_ & Hne). rewrite Hne by discriminate. exact H2. }
  destruct (blankInline_typed _ _ H2') as [pi2 E2]. rewrite E2. cbn [mbind option_bind].
  destruct (blankInline_typed _ _ H3) as [ts1 E3]. rewrite E3. cbn [mbind option_bind].
  assert (H4' : optString (ts1 !! "backgroundMusicUrl")).
  { destruct (blankInline_lookup _ _ _ E3) as (_ & Hne). rewrite Hne by discriminate. exact H4. }
  destruct (blankInline_typed _ _ H4') as [ts2 E4]. rewrite E4. cbn [mbind option_bind].
  destruct (mapImages_typed projectPlaceholder _ H5) as [ps E5]. rewrite E5.
  cbn [mbind option_bind].
  destruct (mapImages_typed certPlaceholder _ H6) as [cs E6]. rewrite E6.
  cbn [mbind option_bind]. eexists. reflexivity.
Qed.

(** The store calls made while time passes are writes of sanitised timer
    arguments, each at the deadline of its timer. *)
Lemma foldl_fireTimer_trace (due : list Timer) (c : Config) :
  ∃ news, trace (foldl fireTimer c due) = trace c ++ news
    ∧ Forall (λ x, ∃ t p, t ∈ due ∧ sanitize (timer_args t) = Some p
                          ∧ x = (deadline t, OpSet p)) news.
Proof.
  revert c. induction due as [|t due IH]; intros c.
  - exists []. cbn. rewrite app_nil_r. split; [reflexivity | constructor].
  - cbn [foldl]. destruct (IH (fireTimer c t)) as (news & Ht & Hall).
    assert (H1 : ∃ n1, trace (fireTimer c t) = trace c ++ n1
                 ∧ Forall (λ x, ∃ t' p, t' ∈ t :: due ∧ sanitize (timer_args t') = Some p
                                        ∧ x = (deadline t', OpSet p)) n1).
    { unfold fireTimer, saveBody. cbn [setNow firestore].
      destruct (negb (firestore c)).
      - exists []. cbn. rewrite app_nil_r. split; [reflexivity | constructor].
      - destruct (sanitize (timer_args t)) as [p|] eqn:E.
        + exists [(deadline t, OpSet p)]. split; [reflexivity|].
          constructor; [|constructor]. exists t, p. repeat split; [left | exact E].
        + exists []. cbn. rewrite app_nil_r. split; [reflexivity | constructor]. }
    destruct H1 as (n1 & Hn1 & Hall1). exists (n1 ++ news). split.
    + rewrite Ht, Hn1, app_assoc. reflexivity.
    + apply Forall_app. split; [exact Hall1|].
      eapply Forall_impl; [exact Hall|]. intros x (t' & p & Hin & Hs & ->).
      exists t', p. repeat split; [right; exact Hin | exact Hs].
Qed.

Lemma elapse_writes (ms : nat) (c : Config) :
  ∃ news, trace (elapse ms c) = trace c ++ news
    ∧ Forall (λ x, ∃ t p, t ∈ timers c ∧ sanitize (timer_args t) = Some p
                          ∧ x = (deadline t, OpSet p)) news.
Proof.
  unfold elapse. cbn [setNow trace].
  destruct (foldl_fireTimer_trace
              (filter (λ t, deadline t ≤ now c + ms) (timers c))
              (setTimers (filter (λ t, ¬ deadline t ≤ now c + ms) (timers c)) c))
    as (news & Ht & Hall).
  exists news. split; [exact Ht|].
  eapply Forall_impl; [exact Hall|]. intros x (t & p & Hin & Hs & ->).
  exists t, p. repeat split; [|exact Hs].
  apply list_elem_of_filter in Hin. apply Hin.
Qed.

(** C4, as the code has it.  In the payload the save body writes, the
    designated fields ([avatarUrl] and [logoUrl] of the personal info,
    [bgImageUrl] and [backgroundMusicUrl] of the theme) are the empty
    string when they started with ['data:'] and are unchanged otherwise;
    each project and certificate is written unchanged, or with its inline
    [imageUrl] replaced by the placeholder, which is an [https://] URL; no
    designated field of the payload starts with the marker.  Every other
    field, collection and item is written as it is, whatever it starts
    with.  The writes made when time passes carry such payloads, and the
    passage of time leaves the component state as it is. *)
Theorem sanitize_replaces_designated_fields (d p : SyncDocument) :
  sanitize d = Some p →
  (personalInfo p !! "avatarUrl" = scrubbed (personalInfo d !! "avatarUrl")
   ∧ personalInfo p !! "logoUrl" = scrubbed (personalInfo d !! "logoUrl")
   ∧ themeSettings p !! "bgImageUrl" = scrubbed (themeSettings d !! "bgImageUrl")
   ∧ themeSettings p !! "backgroundMusicUrl" = scrubbed (themeSettings d !! "backgroundMusicUrl"))
  ∧ (inline (personalInfo p !! "avatarUrl") = false
     ∧ inline (personalInfo p !! "logoUrl") = false
     ∧ inline (themeSettings p !! "bgImageUrl") = false
     ∧ inline (themeSettings p !! "backgroundMusicUrl") = false)
  ∧ (∀ k, k ≠ "avatarUrl" → k ≠ "logoUrl" → personalInfo p !! k = personalInfo d !! k)
  ∧ (∀ k, k ≠ "bgImageUrl" → k ≠ "backgroundMusicUrl" →
          themeSettings p !! k = themeSettings d !! k)
  ∧ (∃ l l', projects d = Arr l ∧ projects p = Arr l'
             ∧ Forall2 (itemWritten projectPlaceholder) l l'
             ∧ Forall (λ y, inline (imageUrlOf y) = false) l')
  ∧ (∃ l l', certifications d = Arr l ∧ certifications p = Arr l'
             ∧ Forall2 (itemWritten certPlaceholder) l l'
             ∧ Forall (λ y, inline (imageUrlOf y) = false) l')
  ∧ workExperience p = workExperience d
  ∧ skills p = skills d
  ∧ (String.prefix "https://" projectPlaceholder = true
     ∧ String.prefix "https://" certPlaceholder = true)
  ∧ (∀ K c ms, app (step K (Elapse ms) c) = app c
       ∧ ∃ news, trace (step K (Elapse ms) c) = trace c ++ news
           ∧ Forall (λ x, ∃ t q, t ∈ timers c ∧ sanitize (timer_args t) = Some q
                                 ∧ x = (deadline t, OpSet q)) news).
Proof.
  unfold sanitize, deepCopy. intros H.
  destruct (blankInline "avatarUrl" (personalInfo d)) as [pi1|] eqn:E1; [|discriminate].
  cbn [mbind option_bind] in H.
  destruct (blankInline "logoUrl" pi1) as [pi2|] eqn:E2; [|discriminate].
  cbn [mbind option_bind] in H.
  destruct (blankInline "bgImageUrl" (themeSettings d)) as [ts1|] eqn:E3; [|discriminate].
  cbn [mbind option_bind] in H.
  destruct (blankInline "backgroundMusicUrl" ts1) as [ts2|] eqn:E4; [|discriminate].
  cbn [mbind option_bind] in H.
  destruct (mapImages projectPlaceholder (projects d)) as [ps|] eqn:E5; [|discriminate].
  cbn [mbind option_bind] in H.
  destruct (mapImages certPlaceholder (certifications d)) as [cs|] eqn:E6; [|discriminate].
  cbn [mbind option_bind] in H. injection H as <-.
  cbn [personalInfo themeSettings projects certifications workExperience skills].
  destruct (blankInline_lookup _ _ _ E1) as (A1 & A1').
  destruct (blankInline_lookup _ _ _ E2) as (A2 & A2').
  destruct (blankInline_lookup _ _ _ E3) as (A3 & A3').
  destruct (blankInline_lookup _ _ _ E4) as (A4 & A4').
  assert (B1 : pi2 !! "avatarUrl" = scrubbed (personalInfo d !! "avatarUrl")).
  { rewrite A2' by discriminate. exact A1. }
  assert (B2 : pi2 !! "logoUrl" = scrubbed (personalInfo d !! "logoUrl")).
  { rewrite A2, A1' by discriminate. reflexivity. }
  assert (B3 : ts2 !! "bgImageUrl" = scrubbed (themeSettings d !! "bgImageUrl")).
  { rewrite A4' by discriminate. exact A3. }
  assert (B4 : ts2 !! "backgroundMusicUrl" = scrubbed (themeSettings d !! "backgroundMusicUrl")).
  { rewrite A4, A3' by discriminate. reflexivity. }
  split; [repeat split; assumption|].
  split; [rewrite B1, B2, B3, B4; repeat split; apply inline_scrubbed|].
  split; [intros k Hk1 Hk2; rewrite A2', A1' by assumption; reflexivity|].
  split; [intros k Hk1 Hk2; rewrite A4', A3' by assumption; reflexivity|].
  split; [apply mapImages_written; [reflexivity | exact E5]|].
  split; [apply mapImages_written; [reflexivity | exact E6]|].
  split; [reflexivity|]. split; [reflexivity|]. split; [split; reflexivity|].
  intros K c ms. cbn [step]. split; [apply elapse_app | apply elapse_writes].
Qed.

(** ** Debounce *)

Section Debounce.

Variable K : Constants.

Lemma step_edit (e : Event) (c : Config) :
  isEdit e = true → step K e c = rerender (app c) true (updContent (editOf e) c).
Proof. destruct e; try discriminate; reflexivity. Qed.

Lemma rerender_timers (prev : AppState) (c : Config) :
  timers (rerender prev true c) = timers (saveEffect c)
  ∧ timeout (rerender prev true c) = timeout (saveEffect c).
Proof. unfold rerender. cbn [orb]. destruct (object_is _ _); split; reflexivity. Qed.

Lemma step_edit_arms (e : Event) (c : Config) :
  isEdit e = true → saving c → timersOwned c →
  saving (step K e c) ∧ pendingSave (step K e c)
  ∧ trace (step K e c) = trace c ∧ now (step K e c) = now c.
Proof.
  intros He (Hf & Hl) Ho. rewrite (step_edit e c He).
  set (c0 := updContent (editOf e) c).
  destruct (rerender_frame (app c) true c0) as (_ & Ht & Hn & Hfs & _).
  destruct (rerender_content (app c) true c0) as (Hc & Hil & _).
  destruct (rerender_timers (app c) c0) as (Htm & Hto).
  assert (Hs : saveEffect c0 = debounce 2000 (content (app c0)) c0).
  { unfold saveEffect, saveEffectOf, saveStateToFirestore. subst c0.
    cbn [updContent setApp app setContent isLoading firestore]. rewrite Hl, Hf. reflexivity. }
  destruct (debounce_arms 2000 (content (app c0)) c0 Ho) as (Ha & Hb).
  repeat split.
  - rewrite Hfs. exact Hf.
  - rewrite Hil. exact Hl.
  - exists (nextTimerId c). rewrite Htm, Hto, Hs, Hn, Hc. split; [exact Ha | exact Hb].
  - exact Ht.
  - exact Hn.
Qed.

Lemma setTimers_timers (c : Config) : setTimers (timers c) c = c.
Proof. destruct c; reflexivity. Qed.

(** Before the deadline nothing fires. *)
Lemma elapse_before (ms : nat) (c : Config) (t : Timer) :
  timers c = [t] → now c + ms < deadline t → elapse ms c = setNow (now c + ms) c.
Proof.
  intros H Hlt. unfold elapse. rewrite H, !filter_cons, !filter_nil.
  destruct (decide (deadline t ≤ now c + ms)) as [Hle|_]; [lia|].
  destruct (decide (¬ deadline t ≤ now c + ms)) as [_|Hn]; [|lia].
  cbn [foldl]. rewrite <- H, setTimers_timers. reflexivity.
Qed.

(** At the deadline the timer fires and the save body writes. *)
Lemma elapse_after (ms : nat) (c : Config) (t : Timer) (p : SyncDocument) :
  timers c = [t] → deadline t ≤ now c + ms → firestore c = true →
  sanitize (timer_args t) = Some p →
  trace (elapse ms c) = trace c ++ [(deadline t, OpSet p)]
  ∧ timers (elapse ms c) = [].
Proof.
  intros H Hle Hf Hs. unfold elapse. rewrite H, !filter_cons, !filter_nil.
  destruct (decide (deadline t ≤ now c + ms)) as [_|Hn]; [|lia].
  destruct (decide (¬ deadline t ≤ now c + ms)) as [Hn|_]; [lia|].
  cbn [foldl]. unfold fireTimer, saveBody. cbn [setNow setTimers firestore].
  rewrite Hf, Hs. split; reflexivity.
Qed.

Lemma burst_pending (rest : list (nat * Event)) (c : Config) :
  saving c → pendingSave c →
  Forall (λ ge, isEdit ge.2 = true ∧ ge.1 < 2000) rest →
  saving (burst K rest c) ∧ pendingSave (burst K rest c)
  ∧ trace (burst K rest c) = trace c.
Proof.
  revert c. induction rest as [|[gap e] rest IH]; intros c Hs Hp Hall.
  - split; [exact Hs | split; [exact Hp | reflexivity]].
  - inversion Hall as [|? ? [He Hgap] Hall']; subst. cbn [fst snd] in He, Hgap.
    cbn [burst step]. destruct Hp as (i & Ht & Hto).
    rewrite (elapse_before gap c _ Ht) by (cbn [deadline]; lia).
    set (ca := setNow (now c + gap) c).
    assert (Hsa : saving ca) by exact Hs.
    assert (Hoa : timersOwned ca).
    { unfold timersOwned. subst ca. cbn [setNow timers timeout]. rewrite Ht, Hto.
      constructor; [reflexivity | constructor]. }
    destruct (step_edit_arms e ca He Hsa Hoa) as (Hsb & Hpb & Htb & _).
    destruct (IH (step K e ca) Hsb Hpb Hall') as (H1 & H2 & H3).
    split; [exact H1 | split; [exact H2 |]]. rewrite H3, Htb. reflexivity.
Qed.

(** C3.  With a store client and loading over, take an edit followed by
    any number of further edits, each less than 2000 ms after the one
    before, and then at least 2000 ms without an event.  During the burst
    nothing is written; after every edit of the burst the only timer armed
    is the one that edit armed, due 2000 ms later and carrying the six
    values as that edit left them, the earlier timers having been cleared;
    and when the state is of the declared types the quiet period adds
    exactly one store call to the log: a write, 2000 ms after the last
    edit, of the sanitised state as of the last edit. *)
Theorem debounce_coalesces_a_burst
    (c : Config) (e : Event) (rest : list (nat * Event)) (quiet : nat) :
  timersOwned c → saving c →
  isEdit e = true →
  Forall (λ ge, isEdit ge.2 = true ∧ ge.1 < 2000) rest →
  2000 ≤ quiet →
  let last := burst K rest (step K e c) in
  wellTyped (content (app last)) →
  (∀ n, pendingSave (burst K (take n rest) (step K e c))
        ∧ trace (burst K (take n rest) (step K e c)) = trace c)
  ∧ ∃ payload,
      sanitize (content (app last)) = Some payload
      ∧ trace (step K (Elapse quiet) last) = trace c ++ [(now last + 2000, OpSet payload)]
      ∧ timers (step K (Elapse quiet) last) = [].
Proof.
  intros Ho Hs He Hall Hq last Hty.
  destruct (step_edit_arms e c He Hs Ho) as (Hs1 & Hp1 & Ht1 & _).
  split.
  - intros n. destruct (burst_pending (take n rest) _ Hs1 Hp1 (Forall_take _ n _ Hall))
      as (_ & Hp & Ht).
    split; [exact Hp | rewrite Ht; exact Ht1].
  - destruct (burst_pending rest _ Hs1 Hp1 Hall) as ((Hf & _) & (i & Htm & _) & Ht).
    fold last in Hf, Htm, Ht.
    destruct (sanitize_typed _ Hty) as [payload Hp]. exists payload.
    split; [exact Hp|]. cbn [step].
    destruct (elapse_after quiet last _ payload Htm) as (Hw & Hn);
      [cbn [deadline]; lia | exact Hf | exact Hp |].
    cbn [deadline] in Hw. rewrite Hw, Ht, Ht1. split; [reflexivity | exact Hn].
Qed.

(** Sessions keep the timers owned by the debounce closure. *)
Lemma debounce_owned (w : nat) (args : SyncDocument) (c : Config) :
  timersOwned c → timersOwned (debounce w args c).
Proof.
  intros H. destruct (debounce_arms w args c H) as (Ha & Hb).
  unfold timersOwned. rewrite Ha, Hb. constructor; [reflexivity | constructor].
Qed.

End Debounce.

(** ** Sessions keep the timers owned *)

Section Owned.

Variable K : Constants.

Lemma saveEffectOf_owned (st : AppState) (c : Config) :
  timersOwned c → timersOwned (saveEffectOf st c).
Proof.
  intros H. unfold saveEffectOf, saveStateToFirestore.
  destruct (isLoading st || negb (firestore c)); [exact H | apply debounce_owned, H].
Qed.

Lemma rerender_owned (prev : AppState) (fresh : bool) (c : Config) :
  timersOwned c → timersOwned (rerender prev fresh c).
Proof.
  intros H. unfold rerender, saveEffect.
  destruct (fresh || _); destruct (object_is _ _); try exact H;
    try (apply saveEffectOf_owned, H);
    apply (saveEffectOf_owned (app c)) in H; exact H.
Qed.

Lemma foldl_fireTimer_timers (due : list Timer) (c : Config) :
  timers (foldl fireTimer c due) = timers c
  ∧ timeout (foldl fireTimer c due) = timeout c.
Proof.
  revert c. induction due as [|t due IH]; intros c; [split; reflexivity|].
  cbn [foldl]. destruct (IH (fireTimer c t)) as (-> & ->).
  unfold fireTimer, saveBody. cbn [setNow firestore].
  destruct (negb (firestore c)); [split; reflexivity|].
  destruct (sanitize (timer_args t)); split; reflexivity.
Qed.

Lemma elapse_owned (ms : nat) (c : Config) : timersOwned c → timersOwned (elapse ms c).
Proof.
  unfold timersOwned, elapse. intros H. cbn [setNow timers timeout].
  match goal with |- context [foldl fireTimer ?x ?d] =>
    destruct (foldl_fireTimer_timers d x) as (-> & ->) end.
  cbn [setTimers timers timeout]. apply Forall_forall. intros t Hin.
  apply list_elem_of_filter in Hin as (_ & Hin).
  rewrite Forall_forall in H. apply H, Hin.
Qed.

Lemma step_owned (e : Event) (c : Config) : timersOwned c → timersOwned (step K e c).
Proof.
  intros H. destruct e; cbn [step];
    try (apply rerender_owned; exact H); try exact H.
  - destruct (decide (l = language c)); [exact H|].
    apply rerender_owned. unfold loadEffect. destruct (negb _); exact H.
  - destruct (inFlight c) as [|l rest]; [exact H|].
    destruct (fetchData K l r acked (app c)) as [st ops].
    apply rerender_owned. exact H.
  - apply elapse_owned, H.
Qed.

Lemma boot_owned (l : Language) (fs : bool) : timersOwned (boot K l fs).
Proof.
  unfold timersOwned. destruct fs.
  - destruct (boot_online K l) as (_ & _ & _ & _ & -> & _). constructor.
  - destruct (boot_localOnly K l) as (_ & _ & _ & -> & _). constructor.
Qed.

Lemma reachable_owned (c : Config) : reachable K c → timersOwned c.
Proof.
  intros (l & fs & evs & ->). generalize (boot_owned l fs). generalize (boot K l fs).
  induction evs as [|e evs IH]; intros c H; [exact H|].
  cbn. apply IH, step_owned, H.
Qed.

End Owned.

(** * The model on the sample instance *)

Section Examples.

Import Sample.

(** The scenario of the specification: protection on, password
    ["abc123"]. *)
Example unlock_scenario :
  isLocked (app loaded) = true
  ∧ (handleUnlockSite "wrong" (app loaded)).2 = false
  ∧ isLocked (handleUnlockSite "wrong" (app loaded)).1 = true
  ∧ (handleUnlockSite "abc123" (app loaded)).2 = true
  ∧ isLocked (handleUnlockSite "abc123" (app loaded)).1 = false.
Proof. vm_compute. repeat split. Qed.

Example sanitize_dirty : sanitize dirty = Some clean.
Proof. vm_compute. reflexivity. Qed.

(** After an absent document has been loaded the save effect has armed its
    timer: 2000 ms later the loaded state is written once more. *)
Example save_follows_load :
  (λ x, (x.1, isWrite x.2)) <$> trace (step K (Elapse 2000) loaded)
  = [(0, false); (0, true); (2000, true)].
Proof. vm_compute. reflexivity. Qed.

End Examples.

(** C4 as the specification states it fails outside the designated
    fields: such a field is written as it is although it starts with the
    marker, here [bio] of the personal info and [logoUrl] of a work
    experience entry. *)
Lemma sanitize_keeps_inline_values_elsewhere :
  sanitize Sample.dirty = Some Sample.clean
  ∧ inline (personalInfo Sample.dirty !! "bio") = true
  ∧ personalInfo Sample.clean !! "bio" = personalInfo Sample.dirty !! "bio"
  ∧ workExperience Sample.clean = workExperience Sample.dirty
  ∧ workExperience Sample.dirty
    = Arr [Obj (<["title" := Str "Engineer"]>
                  (<["logoUrl" := Str "data:image/png;base64,BBBB"]> ∅))].
Proof. vm_compute. repeat split. Qed.

(** C5 as the specification states it fails for the English locale: the
    state is the English bundle while the document is initialised to the
    Vietnamese one, which differs from it; and 2000 ms after the load the
    save armed by its completion writes once more. *)
Lemma load_of_absent_document_writes_vietnamese_bundle :
  let c1 := step Sample.K (FetchSettled absent true) (boot Sample.K EN true) in
  content (app c1) = defaults Sample.K EN
  ∧ trace c1 = [(0, OpGet); (0, OpSet (defaults Sample.K VI))]
  ∧ defaults Sample.K VI ≠ defaults Sample.K EN
  ∧ (λ x, (x.1, isWrite x.2)) <$> trace (step Sample.K (Elapse 2000) c1)
    = [(0, false); (0, true); (2000, true)].
Proof.
  split; [vm_compute; reflexivity|]. split; [vm_compute; reflexivity|]. split.
  - intros H. apply (f_equal (λ d, personalInfo d !! "title")) in H.
    vm_compute in H. discriminate.
  - vm_compute. reflexivity.
Qed.


(** ** Instances of the theorems that have hypotheses *)

Lemma sanitize_replaces_designated_fields_on_sample :
  sanitize Sample.dirty = Some Sample.clean
  ∧ personalInfo Sample.clean !! "avatarUrl" = scrubbed (personalInfo Sample.dirty !! "avatarUrl")
  ∧ inline (themeSettings Sample.clean !! "backgroundMusicUrl") = false.
Proof.
  assert (H : sanitize Sample.dirty = Some Sample.clean) by (vm_compute; reflexivity).
  split; [exact H|].
  destruct (sanitize_replaces_designated_fields Sample.dirty Sample.clean H)
    as ((A & _) & (_ & _ & _ & B) & _).
  split; [exact A | exact B].
Defined.

Lemma debounce_coalesces_sample_burst :
  let last := burst Sample.K Sample.moreEdits (step Sample.K Sample.firstEdit Sample.loaded) in
  now last = 2499
  ∧ ∃ payload,
      sanitize (content (app last)) = Some payload
      ∧ trace (step Sample.K (Elapse 2000) last)
        = trace Sample.loaded ++ [(now last + 2000, OpSet payload)].
Proof.
  split; [vm_compute; reflexivity|].
  destruct (debounce_coalesces_a_burst Sample.K Sample.loaded Sample.firstEdit
              Sample.moreEdits 2000) as (_ & payload & Hp & Ht & _).
  - unfold timersOwned. vm_compute. repeat constructor.
  - split; vm_compute; reflexivity.
  - reflexivity.
  - repeat constructor; cbn; lia.
  - lia.
  - unfold wellTyped. vm_compute. repeat constructor.
  - exists payload. split; [exact Hp | exact Ht].
Defined.

Lemma sample_same_fields (l : Language) :
  dom (PERSONAL_INFO_VI Sample.K) ⊆ dom (basePersonalInfo Sample.K l).
Proof.
  destruct l; cbn [basePersonalInfo PERSONAL_INFO_VI PERSONAL_INFO_EN Sample.K];
    unfold Sample.infoVI, Sample.infoEN; rewrite !dom_insert_L; set_solver.
Defined.

Lemma load_of_absent_document_on_sample :
  let c1 := step Sample.K (FetchSettled absent true) (boot Sample.K EN true) in
  content (app c1) = defaults Sample.K EN
  ∧ trace c1 = [(0, OpGet); (0, OpSet (defaults Sample.K VI))]
  ∧ isLoading (app c1) = false.
Proof.
  destruct (load_of_absent_document_bootstraps Sample.K EN None true)
    as (_ & H1 & H2 & H3 & _).
  split; [exact (H1 (sample_same_fields EN)) | split; [exact H2 | exact H3]].
Defined.

Lemma locale_switch_on_sample :
  let c' := step Sample.K (ChangeLocale EN) Sample.loaded in
  workExperience (content (app c')) = baseWorkExperience Sample.K EN
  ∧ inFlight c' = [EN].
Proof.
  assert (Hl : EN ≠ language Sample.loaded) by (vm_compute; discriminate).
  destruct (locale_switch_resets_collections Sample.K Sample.loaded EN Hl)
    as ((H1 & _) & H2 & _).
  split; [exact H1|].
  destruct (H2 ltac:(vm_compute; reflexivity)) as (H3 & _). exact H3.
Defined.


Lemma unlock_on_sample_changes_only_the_lock_flag :
  let c' := step Sample.K (SubmitUnlockPassword "abc123") Sample.loaded in
  isSiteUnlocked (app c') = true
  ∧ content (app c') = content (app Sample.loaded)
  ∧ trace c' = trace Sample.loaded
  ∧ timers c' = timers Sample.loaded.
Proof.
  destruct (unlock_changes_only_the_lock_flag Sample.K Sample.loaded
              (SubmitUnlockPassword "abc123") eq_refl) as (_ & H1 & H2 & H3 & _).
  split; [vm_compute; reflexivity|].
  split; [exact H1 | split; [exact H2 | exact H3]].
Defined.

Lemma fetchData_merges_sample_document :
  let data : obj := <["personalInfo" := Obj (<["title" := Str "Developer"]> ∅)]> ∅ in
  let loaded :=
    content (fetchData Sample.K EN (existing data) true (initialAppState Sample.K)).1 in
  personalInfo loaded !! "title" = Some (Str "Developer")
  ∧ personalInfo loaded !! "name" = Some (Str "Minh")
  ∧ themeSettings loaded = Sample.theme.
Proof.
  intros data loaded.
  destruct (fetchData_merges_over_defaults Sample.K EN data true (initialAppState Sample.K))
    as (_ & H2 & H3 & _).
  fold loaded in H2, H3.
  split; [rewrite H3; vm_compute; reflexivity|].
  split; [rewrite H3; vm_compute; reflexivity|].
  rewrite H2. vm_compute. reflexivity.
Defined.

Lemma fetchData_replaces_sample_collections :
  let data : obj := <["workExperience" := Arr []]> (<["projects" := Null]> ∅) in
  let loaded :=
    content (fetchData Sample.K EN (existing data) true (initialAppState Sample.K)).1 in
  workExperience loaded = Arr []
  ∧ projects loaded = baseProjects Sample.K EN
  ∧ skills loaded = baseSkills Sample.K EN.
Proof.
  intros data loaded.
  destruct (fetchData_replaces_collections Sample.K EN data true (initialAppState Sample.K))
    as ((H1 & _) & (_ & _ & H2) & _ & (_ & _ & H3)).
  fold loaded in H1, H2, H3.
  split; [apply H1; vm_compute; reflexivity|].
  split; [apply H2 | apply H3]; vm_compute; reflexivity.
Defined.

Lemma lock_state_machine_on_sample :
  let evs := [FetchSettled absent true; Navigate Page.Projects; Elapse 100] in
  let st := app (run Sample.K evs (boot Sample.K VI true)) in
  let off : obj := <["isPasswordProtectionEnabled" := Bool false]> Sample.theme in
  (isSiteUnlocked st = false ∧ isLocked st = true)
  ∧ handleUnlockSite "wrong" st = (st, false)
  ∧ (handleUnlockSite "abc123" st).2 = true
  ∧ isLocked (app (step Sample.K (EditThemeSettings off) Sample.loaded)) = false.
Proof.
  intros evs st off.
  destruct (lock_state_machine Sample.K) as (H1 & H2 & H3 & H4).
  split; [|split; [|split]].
  - apply (H1 VI true evs); [repeat constructor | vm_compute; reflexivity].
  - apply H3. vm_compute. discriminate.
  - apply H2. vm_compute. reflexivity.
  - apply H4; [|vm_compute; reflexivity].
    exists VI, true, [FetchSettled absent true]. reflexivity.
Defined.

Lemma admin_unlock_on_sample :
  handleAdminLoginForUnlock "Minh" "2005" (app Sample.loaded) = (app Sample.loaded, false)
  ∧ isAuthenticated (app (step Sample.K (SubmitAdminLogin "Minh" "2004") Sample.loaded)) = false
  ∧ isLocked (app (step Sample.K (SubmitAdminLogin "Minh" "2004") Sample.loaded)) = false
  ∧ isLocked (app (step Sample.K LoginSucceeded Sample.loaded)) = true.
Proof.
  destruct (admin_unlock_and_login_are_separate Sample.K) as (_ & H2 & H3 & H4).
  split; [apply H3; discriminate|].
  destruct (H2 Sample.loaded) as (_ & Hl & Ha).
  destruct (H4 Sample.loaded) as (_ & _ & Hk).
  split; [rewrite Ha; vm_compute; reflexivity|].
  split; [exact Hl|]. rewrite Hk. vm_compute. reflexivity.
Defined.

(** * Further properties of the component *)

(** ** Sanitisation: failure, fixed points, shape *)

Lemma startsWithData_Some (x : option value) (b : bool) :
  startsWithData x = Some b → optString x.
Proof. destruct x as [[]|]; cbn; intros H; try exact I; discriminate. Qed.

Lemma startsWithData_is_Some (x : option value) :
  is_Some (startsWithData x) ↔ optString x.
Proof.
  split.
  - intros [b H]. exact (startsWithData_Some _ _ H).
  - intros H. rewrite (startsWithData_typed _ H). eexists. reflexivity.
Qed.

Lemma blankInline_is_Some (k : string) (o : obj) :
  is_Some (blankInline k o) ↔ optString (o !! k).
Proof.
  rewrite <- startsWithData_is_Some. unfold blankInline.
  destruct (startsWithData (o !! k)) as [b|]; cbn; split; intros [x H];
    try discriminate; eexists; reflexivity.
Qed.

Lemma blankInline_clean (k : string) (o : obj) :
  optString (o !! k) → inline (o !! k) = false → blankInline k o = Some o.
Proof.
  intros H Hc. unfold blankInline. rewrite (startsWithData_typed _ H), Hc. reflexivity.
Qed.

Lemma optString_scrubbed (x : option value) : optString x → optString (scrubbed x).
Proof. unfold scrubbed. destruct (inline x); [intros _; exact I | intros H; exact H]. Qed.

Lemma replaceInlineImage_is_Some (url : string) (p : value) :
  is_Some (replaceInlineImage url p) ↔ readable p.
Proof.
  destruct p as [|b|n|s|l|m]; cbn [replaceInlineImage readable];
    try (split; [intros _; exact I | intros _; eexists; reflexivity]).
  - split; [intros [x H]; discriminate | intros []].
  - rewrite <- startsWithData_is_Some.
    destruct (startsWithData (m !! "imageUrl")) as [b|]; cbn; split; intros [x H];
      try discriminate; eexists; reflexivity.
Qed.

Lemma replaceInlineImage_clean (url : string) (p : value) :
  readable p → inline (imageUrlOf p) = false → replaceInlineImage url p = Some p.
Proof.
  destruct p as [|b|n|s|l|m]; cbn [replaceInlineImage readable imageUrlOf];
    try reflexivity; [intros [] |].
  intros H Hc. rewrite (startsWithData_typed _ H), Hc. reflexivity.
Qed.

Lemma replaceInlineImage_readable (url : string) (x y : value) :
  replaceInlineImage url x = Some y → readable y.
Proof.
  intros H. assert (Hx : readable x) by (apply (replaceInlineImage_is_Some url); eauto).
  destruct (replaceInlineImage_written url x y H) as [(_ & ->)|(m & _ & _ & ->)];
    [exact Hx|]. cbn [readable]. rewrite lookup_insert_eq. exact I.
Qed.

Lemma mapImages_is_Some (url : string) (xs : value) :
  is_Some (mapImages url xs) ↔ mappable xs.
Proof.
  destruct xs as [| | | |l|]; cbn [mapImages mappable];
    try (split; [intros [x H]; discriminate | intros []]).
  rewrite fmap_is_Some, mapM_is_Some. split; intros H.
  - eapply Forall_impl; [exact H|]. intros x Hx. apply (replaceInlineImage_is_Some url), Hx.
  - eapply Forall_impl; [exact H|]. intros x Hx. apply (replaceInlineImage_is_Some url), Hx.
Qed.

Lemma mapImages_clean (url : string) (xs : value) :
  mappable xs → itemsClean xs → mapImages url xs = Some xs.
Proof.
  destruct xs as [| | | |l|]; cbn [mapImages mappable itemsClean]; intros Hr Hc;
    try contradiction.
  assert (H : mapM (replaceInlineImage url) l = Some l).
  { apply mapM_Some, Forall_Forall2_diag.
    rewrite Forall_forall in Hr, Hc. apply Forall_forall. intros x Hx.
    apply replaceInlineImage_clean; [apply Hr | apply Hc]; exact Hx. }
  rewrite H. reflexivity.
Qed.

Lemma mapImages_output (url : string) (xs ys : value) :
  String.prefix "data:" url = false →
  mapImages url xs = Some ys → mappable ys ∧ itemsClean ys.
Proof.
  intros Hu H.
  destruct (mapImages_written url xs ys Hu H) as (l & l' & -> & -> & _ & Hc).
  split; [|exact Hc]. cbn [mapImages] in H.
  destruct (mapM (replaceInlineImage url) l) as [k|] eqn:E; [|discriminate].
  cbn in H. injection H as <-. apply mapM_Some in E. cbn [mappable]. clear Hc.
  induction E as [|x y l k Hxy _ IH]; constructor; [|exact IH].
  exact (replaceInlineImage_readable url x y Hxy).
Qed.

(** The six binds of [sanitize], taken apart. *)
Lemma sanitize_Some (d p : SyncDocument) :
  sanitize d = Some p →
  ∃ pi1 ts1,
    blankInline "avatarUrl" (personalInfo d) = Some pi1
    ∧ blankInline "logoUrl" pi1 = Some (personalInfo p)
    ∧ blankInline "bgImageUrl" (themeSettings d) = Some ts1
    ∧ blankInline "backgroundMusicUrl" ts1 = Some (themeSettings p)
    ∧ mapImages projectPlaceholder (projects d) = Some (projects p)
    ∧ mapImages certPlaceholder (certifications d) = Some (certifications p)
    ∧ workExperience p = workExperience d
    ∧ skills p = skills d.
Proof.
  unfold sanitize, deepCopy. intros H.
  destruct (blankInline "avatarUrl" (personalInfo d)) as [pi1|] eqn:E1; [|discriminate].
  cbn [mbind option_bind] in H.
  destruct (blankInline "logoUrl" pi1) as [pi2|] eqn:E2; [|discriminate].
  cbn [mbind option_bind] in H.
  destruct (blankInline "bgImageUrl" (themeSettings d)) as [ts1|] eqn:E3; [|discriminate].
  cbn [mbind option_bind] in H.
  destruct (blankInline "backgroundMusicUrl" ts1) as [ts2|] eqn:E4; [|discriminate].
  cbn [mbind option_bind] in H.
  destruct (mapImages projectPlaceholder (projects d)) as [ps|] eqn:E5; [|discriminate].
  cbn [mbind option_bind] in H.
  destruct (mapImages certPlaceholder (certifications d)) as [cs|] eqn:E6; [|discriminate].
  cbn [mbind option_bind] in H. injection H as <-.
  exists pi1, ts1. repeat split; assumption.
Qed.

Lemma sanitize_sanitizable (d : SyncDocument) : sanitizable d → is_Some (sanitize d).
Proof.
  intros (H1 & H2 & H3 & H4 & H5 & H6). unfold sanitize, deepCopy.
  destruct (proj2 (blankInline_is_Some _ _) H1) as [pi1 E1]. rewrite E1.
  cbn [mbind option_bind].
  assert (H2' : optString (pi1 !! "logoUrl")).
  { destruct (blankInline_lookup _ _ _ E1) as (_ & Hne). rewrite Hne by discriminate. exact H2. }
  destruct (proj2 (blankInline_is_Some _ _) H2') as [pi2 E2]. rewrite E2.
  cbn [mbind option_bind].
  destruct (proj2 (blankInline_is_Some _ _) H3) as [ts1 E3]. rewrite E3.
  cbn [mbind option_bind].
  assert (H4' : optString (ts1 !! "backgroundMusicUrl")).
  { destruct (blankInline_lookup _ _ _ E3) as (_ & Hne). rewrite Hne by discriminate. exact H4. }
  destruct (proj2 (blankInline_is_Some _ _) H4') as [ts2 E4]. rewrite E4.
  cbn [mbind option_bind].
  destruct (proj2 (mapImages_is_Some projectPlaceholder _) H5) as [ps E5]. rewrite E5.
  cbn [mbind option_bind].
  destruct (proj2 (mapImages_is_Some certPlaceholder _) H6) as [cs E6]. rewrite E6.
  cbn [mbind option_bind]. eexists. reflexivity.
Qed.

Lemma sanitize_input_sanitizable (d p : SyncDocument) : sanitize d = Some p → sanitizable d.
Proof.
  intros H. destruct (sanitize_Some d p H) as (pi1 & ts1 & E1 & E2 & E3 & E4 & E5 & E6 & _).
  assert (A1 : optString (personalInfo d !! "avatarUrl")) by (apply blankInline_is_Some; eauto).
  assert (A2 : optString (pi1 !! "logoUrl")) by (apply blankInline_is_Some; eauto).
  assert (A3 : optString (themeSettings d !! "bgImageUrl")) by (apply blankInline_is_Some; eauto).
  assert (A4 : optString (ts1 !! "backgroundMusicUrl")) by (apply blankInline_is_Some; eauto).
  destruct (blankInline_lookup _ _ _ E1) as (_ & N1). rewrite N1 in A2 by discriminate.
  destruct (blankInline_lookup _ _ _ E3) as (_ & N3). rewrite N3 in A4 by discriminate.
  repeat split; try assumption.
  - apply (mapImages_is_Some projectPlaceholder). eauto.
  - apply (mapImages_is_Some certPlaceholder). eauto.
Qed.

Lemma sanitize_clean (d : SyncDocument) : sanitizable d → inlineFree d → sanitize d = Some d.
Proof.
  intros (H1 & H2 & H3 & H4 & H5 & H6) (C1 & C2 & C3 & C4 & C5 & C6).
  unfold sanitize, deepCopy.
  rewrite (blankInline_clean _ _ H1 C1). cbn [mbind option_bind].
  rewrite (blankInline_clean _ _ H2 C2). cbn [mbind option_bind].
  rewrite (blankInline_clean _ _ H3 C3). cbn [mbind option_bind].
  rewrite (blankInline_clean _ _ H4 C4). cbn [mbind option_bind].
  rewrite (mapImages_clean _ _ H5 C5). cbn [mbind option_bind].
  rewrite (mapImages_clean _ _ H6 C6). cbn [mbind option_bind].
  destruct d; reflexivity.
Qed.

Lemma sanitize_output (d p : SyncDocument) :
  sanitize d = Some p → sanitizable p ∧ inlineFree p.
Proof.
  intros H. pose proof (sanitize_input_sanitizable d p H) as (S1 & S2 & S3 & S4 & _ & _).
  destruct (sanitize_Some d p H) as (pi1 & ts1 & E1 & E2 & E3 & E4 & E5 & E6 & _).
  destruct (blankInline_lookup _ _ _ E1) as (A1 & A1').
  destruct (blankInline_lookup _ _ _ E2) as (A2 & A2').
  destruct (blankInline_lookup _ _ _ E3) as (A3 & A3').
  destruct (blankInline_lookup _ _ _ E4) as (A4 & A4').
  assert (B1 : personalInfo p !! "avatarUrl" = scrubbed (personalInfo d !! "avatarUrl")).
  { rewrite A2' by discriminate. exact A1. }
  assert (B2 : personalInfo p !! "logoUrl" = scrubbed (personalInfo d !! "logoUrl")).
  { rewrite A2, A1' by discriminate. reflexivity. }
  assert (B3 : themeSettings p !! "bgImageUrl" = scrubbed (themeSettings d !! "bgImageUrl")).
  { rewrite A4' by discriminate. exact A3. }
  assert (B4 : themeSettings p !! "backgroundMusicUrl"
               = scrubbed (themeSettings d !! "backgroundMusicUrl")).
  { rewrite A4, A3' by discriminate. reflexivity. }
  destruct (mapImages_output projectPlaceholder _ _ eq_refl E5) as (M5 & I5).
  destruct (mapImages_output certPlaceholder _ _ eq_refl E6) as (M6 & I6).
  split.
  - unfold sanitizable. rewrite B1, B2, B3, B4.
    repeat split; try (apply optString_scrubbed; assumption); assumption.
  - unfold inlineFree. rewrite B1, B2, B3, B4.
    repeat split; try apply inline_scrubbed; assumption.
Qed.

Lemma sanitize_fixed (d p : SyncDocument) : sanitize d = Some p → sanitize p = Some p.
Proof. intros H. destruct (sanitize_output d p H). apply sanitize_clean; assumption. Qed.

(** X1.  Sanitisation is idempotent: a payload that the save body has
    produced is left exactly as it is when sanitised again. *)
Theorem sanitize_idempotent (d p : SyncDocument) :
  sanitize d = Some p → sanitize p = Some p.
Proof. apply sanitize_fixed. Qed.

(** X2.  A state on which sanitisation raises nothing and whose designated
    fields hold no inline payload is written exactly as it is. *)
Theorem sanitize_leaves_clean_state (d : SyncDocument) :
  sanitizable d → inlineFree d → sanitize d = Some d.
Proof. apply sanitize_clean. Qed.

(** X3.  Sanitisation raises exactly when one of the four URL fields is
    neither absent, [null] nor a string, when [projects] or
    [certifications] is not an array, when one of their items is [null],
    or when the [imageUrl] of an item is neither absent, [null] nor a
    string; and when it raises, the save body makes no store call and
    changes nothing. *)
Theorem sanitize_raises_exactly_on_ill_typed_state :
  (∀ d, is_Some (sanitize d) ↔ sanitizable d)
  ∧ (∀ d c, ¬ sanitizable d → saveBody d c = c).
Proof.
  split.
  - intros d. split; [intros [p H]; exact (sanitize_input_sanitizable d p H)
                     | apply sanitize_sanitizable].
  - intros d c Hn. unfold saveBody. destruct (negb (firestore c)); [reflexivity|].
    destruct (sanitize d) as [p|] eqn:E; [|reflexivity].
    destruct Hn. exact (sanitize_input_sanitizable d p E).
Qed.

Lemma blankInline_dom (k : string) (o o' : obj) : blankInline k o = Some o' → dom o' = dom o.
Proof.
  unfold blankInline. intros H.
  destruct (startsWithData (o !! k)) as [b|] eqn:E; [|discriminate].
  cbn in H. injection H as <-. destruct b; [|reflexivity].
  apply dom_insert_lookup_L. destruct (o !! k) as [[]|]; try discriminate. eexists. reflexivity.
Qed.

Lemma itemWritten_sameKeys (url : string) (x y : value) : itemWritten url x y → sameKeys x y.
Proof.
  intros [(_ & ->)|(m & -> & Hi & ->)].
  - destruct x; reflexivity.
  - cbn [sameKeys]. apply dom_insert_lookup_L.
    destruct (m !! "imageUrl") as [[]|]; try discriminate. eexists. reflexivity.
Qed.

Lemma mapImages_sameKeys (url : string) (xs ys : value) :
  String.prefix "data:" url = false →
  mapImages url xs = Some ys →
  ∃ l l', xs = Arr l ∧ ys = Arr l' ∧ length l' = length l ∧ Forall2 sameKeys l l'.
Proof.
  intros Hu H. destruct (mapImages_written url xs ys Hu H) as (l & l' & -> & -> & Hw & _).
  exists l, l'. repeat split.
  - symmetry. exact (Forall2_length _ _ _ Hw).
  - eapply Forall2_impl; [exact Hw|]. intros x y. apply itemWritten_sameKeys.
Qed.

(** X4.  Sanitisation keeps the shape of the state: the personal info and
    the theme keep exactly their fields, and projects and certificates
    keep their number, their order and, item by item, their fields. *)
Theorem sanitize_keeps_shape (d p : SyncDocument) :
  sanitize d = Some p →
  dom (personalInfo p) = dom (personalInfo d)
  ∧ dom (themeSettings p) = dom (themeSettings d)
  ∧ (∃ l l', projects d = Arr l ∧ projects p = Arr l'
             ∧ length l' = length l ∧ Forall2 sameKeys l l')
  ∧ (∃ l l', certifications d = Arr l ∧ certifications p = Arr l'
             ∧ length l' = length l ∧ Forall2 sameKeys l l').
Proof.
  intros H. destruct (sanitize_Some d p H) as (pi1 & ts1 & E1 & E2 & E3 & E4 & E5 & E6 & _).
  split; [rewrite (blankInline_dom _ _ _ E2); exact (blankInline_dom _ _ _ E1)|].
  split; [rewrite (blankInline_dom _ _ _ E4); exact (blankInline_dom _ _ _ E3)|].
  split; [exact (mapImages_sameKeys projectPlaceholder _ _ eq_refl E5)
         | exact (mapImages_sameKeys certPlaceholder _ _ eq_refl E6)].
Qed.

(** ** The store log of a session *)

Section Log.

Variable K : Constants.

Lemma fetchData_ops (l : Language) (r : GetResult) (acked : bool) (st : AppState) :
  (fetchData K l r acked st).2 = [] ∨ (fetchData K l r acked st).2 = [OpSet (initialState K)].
Proof.
  unfold fetchData. destruct r as [|doc]; [left; reflexivity|].
  destruct (doc_exists doc); [destruct (doc_data doc); left; reflexivity | right; reflexivity].
Qed.

(** What one event adds to the store log: one read when the event issues
    one, then writes of the bootstrap bundle or of sanitised states. *)
Lemma step_log (e : Event) (c : Config) :
  ∃ writes,
    trace (step K e c)
    = trace c ++ (if issuesRead e c then [(now c, OpGet)] else []) ++ writes
    ∧ Forall (bootstrapOrSanitised K) writes.
Proof.
  destruct e; cbn [step issuesRead];
    try (exists []; rewrite !app_nil_r; split; [|constructor];
         first [ reflexivity
               | match goal with |- trace (rerender ?p ?f ?x) = _ =>
                   destruct (rerender_frame p f x) as (_ & -> & _) end; reflexivity ]).
  - exists []. rewrite app_nil_r. split; [|constructor].
    destruct (decide (l = language c)) as [->|Hne].
    + rewrite bool_decide_eq_false_2 by (intros Hn; apply Hn; reflexivity).
      cbn [andb]. rewrite app_nil_r. reflexivity.
    + rewrite bool_decide_eq_true_2 by exact Hne. cbn [andb].
      match goal with |- trace (rerender ?p ?f ?x) = _ =>
        destruct (rerender_frame p f x) as (_ & -> & _) end.
      unfold loadEffect. cbn [updContent setApp setLanguage firestore].
      destruct (firestore c); [reflexivity | cbn; rewrite app_nil_r; reflexivity].
  - destruct (inFlight c) as [|l rest].
    { exists []. rewrite !app_nil_r. split; [reflexivity | constructor]. }
    pose proof (fetchData_ops l r acked (app c)) as Hops.
    destruct (fetchData K l r acked (app c)) as [st ops]. cbn [snd] in Hops.
    match goal with |- context [rerender ?p ?f ?x] =>
      destruct (rerender_frame p f x) as (_ & -> & _) end.
    cbn [setApp logOps setInFlight trace now]. cbn [app].
    exists ((λ o, (now c, o)) <$> ops). split; [reflexivity|].
    destruct Hops as [-> | ->]; [constructor|].
    constructor; [|constructor]. eexists. split; [reflexivity | left; reflexivity].
  - cbn [app]. destruct (elapse_writes ms c) as (news & Ht & Hall).
    exists news. split; [exact Ht|].
    eapply Forall_impl; [exact Hall|]. intros x (t & p & _ & Hs & ->).
    exists p. split; [reflexivity|]. right. exact (sanitize_fixed _ _ Hs).
Qed.

Lemma bootstrapOrSanitised_acceptable (x : nat * StoreOp) :
  bootstrapOrSanitised K x → acceptable K x.2.
Proof. intros (p & -> & H). exact H. Qed.

Lemma step_acceptable (e : Event) (c : Config) :
  Forall (λ x, acceptable K x.2) (trace c) →
  Forall (λ x, acceptable K x.2) (trace (step K e c)).
Proof.
  intros H. destruct (step_log e c) as (writes & -> & Hw).
  apply Forall_app. split; [exact H|]. apply Forall_app. split.
  - destruct (issuesRead e c); repeat constructor.
  - eapply Forall_impl; [exact Hw|]. apply bootstrapOrSanitised_acceptable.
Qed.

Lemma boot_trace (l : Language) (fs : bool) :
  trace (boot K l fs) = if fs then [(0, OpGet)] else [].
Proof.
  destruct fs.
  - apply (boot_online K l).
  - apply (boot_localOnly K l).
Qed.

(** X5.  In every configuration a session can reach, each write in the
    store log carries either the bootstrap bundle or a state that
    sanitisation leaves as it is: outside the bootstrap bundle, no payload
    ever written holds an inline value under a designated field. *)
Theorem session_writes_are_bootstrap_or_sanitised (c : Config) :
  reachable K c →
  Forall (λ x, acceptable K x.2) (trace c)
  ∧ (∀ t p, (t, OpSet p) ∈ trace c → p ≠ initialState K → sanitizable p ∧ inlineFree p).
Proof.
  intros (l & fs & evs & ->).
  assert (H : Forall (λ x, acceptable K x.2) (trace (run K evs (boot K l fs)))).
  { assert (H0 : Forall (λ x, acceptable K x.2) (trace (boot K l fs))).
    { rewrite boot_trace. destruct fs; repeat constructor. }
    revert H0. generalize (boot K l fs).
    induction evs as [|e evs IH]; intros c H0; [exact H0|].
    cbn. apply IH, step_acceptable, H0. }
  split; [exact H|]. intros t p Hin Hne.
  rewrite Forall_forall in H. specialize (H _ Hin). cbn in H.
  destruct H as [H|H]; [contradiction|]. exact (sanitize_output _ _ H).
Qed.

(** X6.  The store is read once at start-up when there is a store client,
    and afterwards only on a switch to another locale made with a store
    client: such an event logs exactly one read, at the time of the event,
    and whatever else an event logs is a write. *)
Theorem reads_are_issued_by_locale_switches_only :
  (∀ l fs, trace (boot K l fs) = if fs then [(0, OpGet)] else [])
  ∧ (∀ e c, ∃ writes,
       trace (step K e c)
       = trace c ++ (if issuesRead e c then [(now c, OpGet)] else []) ++ writes
       ∧ Forall (λ x, isWrite x.2 = true) writes).
Proof.
  split; [apply boot_trace|]. intros e c.
  destruct (step_log e c) as (writes & Ht & Hw). exists writes. split; [exact Ht|].
  eapply Forall_impl; [exact Hw|]. intros x (p & -> & _). reflexivity.
Qed.

End Log.

(** ** Loading and the error message *)

Section LoadingAndError.

Variable K : Constants.







Lemma fetchData_error (l : Language) (r : GetResult) (acked : bool) (st : AppState) :
  error (fetchData K l r acked st).1
  = if match r with
       | GetRejected => true
       | GetResolved doc => negb (doc_exists doc) && negb acked
       end
    then Some loadErrorMessage else error st.
Proof.
  unfold fetchData. destruct r as [|doc]; [reflexivity|].
  destruct (doc_exists doc); [destruct (doc_data doc)|destruct acked]; reflexivity.
Qed.

Lemma step_error (e : Event) (c : Config) :
  error (app (step K e c)) = if loadFails e c then Some loadErrorMessage else error (app c).
Proof.
  destruct e; cbn [step loadFails];
    try (match goal with |- context [rerender ?p ?f ?x] =>
           destruct (rerender_content p f x) as (_ & _ & -> & _) end; reflexivity);
    try reflexivity.
  - destruct (decide (l = language c)); [reflexivity|].
    match goal with |- context [rerender ?p ?f ?x] =>
      destruct (rerender_content p f x) as (_ & _ & -> & _) end.
    unfold loadEffect. destruct (negb _); reflexivity.
  - destruct (inFlight c) as [|l rest]; [destruct r; reflexivity|].
    pose proof (fetchData_error l r acked (app c)) as H.
    destruct (fetchData K l r acked (app c)) as [st ops]. cbn [fst] in H.
    match goal with |- context [rerender ?p ?f ?x] =>
      destruct (rerender_content p f x) as (_ & _ & -> & _) end.
    cbn [setApp app]. rewrite H. destruct r; reflexivity.
  - unfold handleUnlockSite. destruct (strictEqStr _ _); reflexivity.
  - unfold handleAdminLoginForUnlock. destruct (_ && _); reflexivity.
  - rewrite elapse_app. reflexivity.
Qed.

(** X8.  The error message is set by exactly two events, the rejection of
    a pending read and the rejection of the write that initialises an
    absent document (the message is the same in both cases), and nothing
    ever clears it: once set it stays through every later event, a later
    successful load included. *)
Theorem load_error_is_set_on_rejection_and_never_cleared :
  (∀ e c, error (app (step K e c))
          = if loadFails e c then Some loadErrorMessage else error (app c))
  ∧ (∀ evs c, is_Some (error (app c)) → is_Some (error (app (run K evs c)))).
Proof.
  split; [apply step_error|].
  induction evs as [|e evs IH]; intros c H; [exact H|].
  cbn. apply IH. rewrite step_error. destruct (loadFails e c); [eexists; reflexivity | exact H].
Qed.

End LoadingAndError.

(** ** Lock, views and locale *)

Section Views.

Variable K : Constants.

Lemma rerender_flag (prev : AppState) (fresh : bool) (c : Config) :
  isSiteUnlocked (app (rerender prev fresh c))
  = if object_is (protection prev) (protection (app c))
    then isSiteUnlocked (app c)
    else negb (toBoolean (protection (app c))).
Proof.
  destruct (rerender_frame prev fresh c) as (-> & _).
  fold (protection prev). fold (protection (app c)).
  destruct (object_is _ _); [reflexivity|].
  destruct (lockEffect_frame (app c)) as (_ & _ & _ & _ & ->). reflexivity.
Qed.

Lemma object_is_false_of_toBoolean (x y : option value) :
  toBoolean x ≠ toBoolean y → object_is x y = false.
Proof.
  intros H. destruct (object_is x y) eqn:E; [|reflexivity].
  destruct H. exact (object_is_toBoolean x y E).
Qed.

Lemma object_is_refl (x : option value) : primitive x → object_is x x = true.
Proof.
  destruct x as [[| b | n | s | |]|]; cbn; intros H; try reflexivity; try contradiction.
  - destruct b; reflexivity.
  - apply Z.eqb_refl.
  - apply String.eqb_refl.
Qed.

(** X9.  The lock flag is derived again from the theme exactly when the
    value of the protection flag changes (the flag being of a primitive
    value, as its declared type has it).  An edit of the theme, or a load
    of an existing document, that leaves that value as it was leaves the
    lock flag as it was, so a visitor who has unlocked stays unlocked; one
    that changes the value sets the flag from the new value alone, so
    switching protection from off to on locks the site even for a visitor
    who had unlocked before. *)
Theorem lock_is_rederived_exactly_when_the_flag_changes :
  (∀ c v, primitive (v !! "isPasswordProtectionEnabled") →
     isSiteUnlocked (app (step K (EditThemeSettings v) c))
     = if object_is (protection (app c)) (v !! "isPasswordProtectionEnabled")
       then isSiteUnlocked (app c)
       else negb (toBoolean (v !! "isPasswordProtectionEnabled")))
  ∧ (∀ c l rest data acked, inFlight c = l :: rest →
       primitive (themeSettings (applyRemote K l data) !! "isPasswordProtectionEnabled") →
       isSiteUnlocked (app (step K (FetchSettled (existing data) acked) c))
       = if object_is (protection (app c))
                      (themeSettings (applyRemote K l data) !! "isPasswordProtectionEnabled")
         then isSiteUnlocked (app c)
         else negb (toBoolean (themeSettings (applyRemote K l data)
                                 !! "isPasswordProtectionEnabled")))
  ∧ (∀ c v, toBoolean (protection (app c)) = false →
            toBoolean (v !! "isPasswordProtectionEnabled") = true →
            isLocked (app (step K (EditThemeSettings v) c)) = true).
Proof.
  split; [|split].
  - intros c v _. cbn [step]. rewrite rerender_flag. reflexivity.
  - intros c l rest data acked Hi _. cbn [step]. rewrite Hi, fetchData_existing.
    rewrite rerender_flag. reflexivity.
  - intros c v Hoff Hon. unfold isLocked. cbn [step].
    match goal with |- context [rerender ?p ?f ?x] =>
      destruct (rerender_content p f x) as (-> & _) end.
    rewrite rerender_flag.
    change (protection (app (updContent (setThemeSettings v) c)))
      with (v !! "isPasswordProtectionEnabled").
    cbn [updContent setApp app setContent content setThemeSettings themeSettings].
    rewrite object_is_false_of_toBoolean by congruence.
    rewrite Hon. reflexivity.
Qed.

Lemma firstRender_flag (e : Event) (c : Config) :
  isSiteUnlocked (firstRender K e c) = isSiteUnlocked (app c)
  ∨ (isSiteUnlocked (firstRender K e c) = true
     ∧ protection (firstRender K e c) = protection (app c)).
Proof.
  destruct e; cbn [firstRender editOf step]; try (left; reflexivity).
  - destruct (inFlight c) as [|l rest]; [left; reflexivity|].
    left. apply fetchData_flags.
  - unfold handleUnlockSite. destruct (strictEqStr _ _);
      [right; split; reflexivity | left; reflexivity].
  - unfold handleAdminLoginForUnlock. destruct (_ && _);
      [right; split; reflexivity | left; reflexivity].
Qed.

Lemma firstRender_protection (e : Event) (c : Config) :
  protection (app (step K e c)) = protection (firstRender K e c).
Proof.
  unfold protection.
  destruct e; cbn [firstRender editOf step];
    try (match goal with |- context [rerender ?p ?f ?x] =>
           destruct (rerender_content p f x) as (-> & _) end; reflexivity);
    try reflexivity.
  - destruct (decide (l = language c)); [reflexivity|].
    match goal with |- context [rerender ?p ?f ?x] =>
      destruct (rerender_content p f x) as (-> & _) end.
    rewrite loadEffect_content. destruct l; reflexivity.
  - destruct (inFlight c) as [|l rest]; [reflexivity|].
    destruct (fetchData K l r acked (app c)) as [st ops].
    match goal with |- context [rerender ?p ?f ?x] =>
      destruct (rerender_content p f x) as (-> & _) end.
    reflexivity.
  - rewrite elapse_app. reflexivity.
Qed.

Lemma renderPage_unlocked (st : AppState) :
  isSiteUnlocked st = true → renderPage st ≠ LimitedIntroduction.
Proof.
  intros H. unfold renderPage. rewrite H. cbn [negb].
  destruct (selectedProject st); [discriminate|].
  destruct (currentPage st); try discriminate.
  destruct (isAuthenticated st); discriminate.
Qed.

(** X10.  Once the effects that follow an event have run, that is in
    every configuration a session can reach, the reduced introduction page
    is what [renderPage] returns exactly when the lock modal is shown,
    that is when [isLocked] holds: the two tests, the one on
    [isSiteUnlocked] alone and the one that also reads the protection
    flag, agree.  In the render that is committed right after an event
    and before its effects, they agree as well unless the site was locked
    and the event has made the protection flag falsy: in that one render
    the reduced page is shown without the lock modal, and the lock effect
    that follows removes the reduced page. *)
Theorem limited_view_matches_lock_once_effects_have_run (c : Config) :
  reachable K c →
  ((renderPage (app c) = LimitedIntroduction ↔ isLocked (app c) = true)
   ∧ isLocked (app c) = negb (isSiteUnlocked (app c)))
  ∧ (∀ e,
       (isSiteUnlocked (app c) = true ∨ toBoolean (protection (firstRender K e c)) = true →
        (renderPage (firstRender K e c) = LimitedIntroduction
         ↔ isLocked (firstRender K e c) = true))
       ∧ (isSiteUnlocked (app c) = false →
          toBoolean (protection (firstRender K e c)) = false →
          renderPage (firstRender K e c) = LimitedIntroduction
          ∧ isLocked (firstRender K e c) = false
          ∧ renderPage (app (step K e c)) ≠ LimitedIntroduction
          ∧ isLocked (app (step K e c)) = false)).
Proof.
  intros Hr. pose proof (reachable_openWhenOff K c Hr) as Ho.
  unfold openWhenOff in Ho. split.
  - unfold isLocked, renderPage. fold (protection (app c)).
    destruct (isSiteUnlocked (app c)) eqn:Eu; cbn [negb].
    + rewrite andb_false_r. split; [|reflexivity]. split; [|discriminate].
      destruct (selectedProject (app c)); [discriminate|].
      destruct (currentPage (app c)); try discriminate.
      destruct (isAuthenticated (app c)); discriminate.
    + destruct (toBoolean (protection (app c))) eqn:Ep.
      * split; [split; reflexivity | reflexivity].
      * specialize (Ho eq_refl). discriminate.
  - intros e. pose proof (firstRender_flag e c) as Hfl. split.
    + intros H. destruct (isSiteUnlocked (firstRender K e c)) eqn:Eu.
      * split; [intros Hv; destruct (renderPage_unlocked _ Eu Hv)|].
        unfold isLocked. rewrite Eu, andb_false_r. discriminate.
      * assert (Hp : toBoolean (protection (firstRender K e c)) = true).
        { destruct H as [H|H]; [|exact H].
          destruct Hfl as [Hfl|(Hfl & _)]; congruence. }
        unfold isLocked, renderPage. fold (protection (firstRender K e c)).
        rewrite Eu, Hp. split; reflexivity.
    + intros Hlocked Hoff.
      assert (Eu : isSiteUnlocked (firstRender K e c) = false).
      { destruct Hfl as [Hfl|(_ & Hfl)]; [congruence|].
        rewrite Hfl in Hoff. specialize (Ho Hoff). congruence. }
      assert (Hr' : reachable K (step K e c)).
      { destruct Hr as (l & fs & evs & ->). exists l, fs, (evs ++ [e]).
        unfold run. rewrite foldl_app. reflexivity. }
      pose proof (reachable_openWhenOff K _ Hr') as Ho'. unfold openWhenOff in Ho'.
      rewrite firstRender_protection in Ho'. specialize (Ho' Hoff).
      split; [|split; [|split]].
      * unfold renderPage. rewrite Eu. reflexivity.
      * unfold isLocked. fold (protection (firstRender K e c)). rewrite Hoff. reflexivity.
      * apply renderPage_unlocked, Ho'.
      * unfold isLocked. rewrite Ho', andb_false_r. reflexivity.
Qed.

Lemma step_isAuthenticated (e : Event) (c : Config) :
  isLogin e = false → isAuthenticated (app c) = false →
  isAuthenticated (app (step K e c)) = false.
Proof.
  intros He Ha. destruct e; try discriminate; cbn [step];
    try (match goal with |- context [rerender ?p ?f ?x] =>
           destruct (rerender_content p f x) as (_ & _ & _ & ->) end; exact Ha);
    try exact Ha; try reflexivity.
  - destruct (decide (l = language c)); [exact Ha|].
    match goal with |- context [rerender ?p ?f ?x] =>
      destruct (rerender_content p f x) as (_ & _ & _ & ->) end.
    unfold loadEffect. destruct (negb _); exact Ha.
  - destruct (inFlight c) as [|l rest]; [exact Ha|].
    destruct (fetchData_flags K l r acked (app c)) as (_ & Hf).
    destruct (fetchData K l r acked (app c)) as [st ops]. cbn [fst] in Hf.
    match goal with |- context [rerender ?p ?f ?x] =>
      destruct (rerender_content p f x) as (_ & _ & _ & ->) end.
    cbn [setApp app]. congruence.
  - unfold handleUnlockSite. destruct (strictEqStr _ _); exact Ha.
  - unfold handleAdminLoginForUnlock. destruct (_ && _); exact Ha.
  - rewrite elapse_app. exact Ha.
Qed.

Lemma boot_isAuthenticated (l : Language) (fs : bool) :
  isAuthenticated (app (boot K l fs)) = false.
Proof.
  unfold boot, mount, saveEffect.
  match goal with |- isAuthenticated (app (saveEffectOf ?s ?x)) = _ =>
    destruct (saveEffectOf_frame s x) as (-> & _) end.
  cbn [setApp app].
  match goal with |- context [lockEffect ?s] =>
    destruct (lockEffect_frame s) as (_ & _ & _ & -> & _) end.
  match goal with |- isAuthenticated (app (saveEffectOf ?s ?x)) = _ =>
    destruct (saveEffectOf_frame s x) as (-> & _) end.
  unfold loadEffect. destruct (negb _); reflexivity.
Qed.

(** X11.  The settings editor is shown only after the login form has
    reported success.  From start-up, and from any logout, a sequence of
    events without a successful login leaves [isAuthenticated] false and
    never makes [renderPage] return the editor; unlocking the site with
    the admin credentials does not count as a login. *)
Theorem settings_editor_requires_login (c : Config) (evs : list Event) :
  isAuthenticated (app c) = false →
  Forall (λ e, isLogin e = false) evs →
  isAuthenticated (app (run K evs c)) = false
  ∧ renderPage (app (run K evs c)) ≠ SettingsEditor.
Proof.
  intros Ha Hall.
  assert (H : isAuthenticated (app (run K evs c)) = false).
  { revert c Ha. induction Hall as [|e evs He _ IH]; intros c Ha; [exact Ha|].
    cbn. apply IH, step_isAuthenticated; assumption. }
  split; [exact H|]. unfold renderPage. rewrite H.
  destruct (negb _); [discriminate|].
  destruct (selectedProject _); [discriminate|].
  destruct (currentPage _); discriminate.
Qed.

(** X12.  Logout and navigation differ on an open project.  Logout sets
    the page to the introduction and drops authentication but keeps the
    selected project, so with a project open the project detail stays on
    screen; navigation through [handlePageChange] clears the selection,
    so the view is the requested page (for the settings page, the editor
    or the login form). *)
Theorem logout_keeps_the_open_project_navigation_closes_it :
  (∀ c, let st := app (step K Logout c) in
        isAuthenticated st = false
        ∧ currentPage st = Page.Introduction
        ∧ selectedProject st = selectedProject (app c)
        ∧ renderPage st
          = if negb (isSiteUnlocked (app c)) then LimitedIntroduction
            else match selectedProject (app c) with
                 | Some p => ProjectDetailView p
                 | None => PageView Page.Introduction
                 end)
  ∧ (∀ c page, let st := app (step K (Navigate page) c) in
        selectedProject st = None
        ∧ isAuthenticated st = isAuthenticated (app c)
        ∧ renderPage st
          = if negb (isSiteUnlocked (app c)) then LimitedIntroduction
            else match page with
                 | Page.Settings =>
                     if isAuthenticated (app c) then SettingsEditor else LoginForm
                 | p => PageView p
                 end).
Proof.
  split.
  - intros c st. subst st. cbn [step]. unfold renderPage, handleLogout. cbn.
    repeat split.
  - intros c page st. subst st. cbn [step]. unfold renderPage, handlePageChange. cbn.
    repeat split. destruct (negb _); [reflexivity|]. destruct page; reflexivity.
Qed.

(** X13.  A switch to another locale leaves the theme and authentication
    as they are, leaves the lock flag as it is (the protection flag being
    of a primitive value), and merges the personal info instead of
    replacing it: every field the new locale's constant has takes the
    constant's value, every other field keeps the value it had. *)
Theorem locale_switch_merges_personal_info_and_keeps_theme (c : Config) (l : Language) :
  l ≠ language c →
  let c' := step K (ChangeLocale l) c in
  themeSettings (content (app c')) = themeSettings (content (app c))
  ∧ (∀ k, personalInfo (content (app c')) !! k
          = match basePersonalInfo K l !! k with
            | Some v => Some v
            | None => personalInfo (content (app c)) !! k
            end)
  ∧ (primitive (protection (app c)) → isSiteUnlocked (app c') = isSiteUnlocked (app c))
  ∧ isAuthenticated (app c') = isAuthenticated (app c)
  ∧ language c' = l.
Proof.
  intros Hl c'. subst c'. rewrite (step_ChangeLocale K c l Hl).
  set (c0 := loadEffect (updContent (languageEffect K l) (setLanguage l c))).
  assert (Hc : content (app c0) = languageEffect K l (content (app c))).
  { subst c0. rewrite loadEffect_content. reflexivity. }
  assert (Hth : themeSettings (content (app c0)) = themeSettings (content (app c))).
  { rewrite Hc. destruct l; reflexivity. }
  destruct (rerender_content (app c) true c0) as (Hrc & _ & _ & Hra).
  destruct (rerender_frame (app c) true c0) as (_ & _ & _ & _ & Hlang & _).
  split; [rewrite Hrc; exact Hth|]. split; [|split; [|split]].
  - intros k. rewrite Hrc, Hc.
    destruct l; cbn [languageEffect personalInfo basePersonalInfo];
      rewrite lookup_objectSpread; reflexivity.
  - intros Hp. rewrite rerender_flag. unfold protection at 2. rewrite Hth.
    fold (protection (app c)). rewrite (object_is_refl _ Hp).
    subst c0. unfold loadEffect. destruct (negb _); reflexivity.
  - rewrite Hra. subst c0. unfold loadEffect. destruct (negb _); reflexivity.
  - rewrite Hlang. subst c0. unfold loadEffect. destruct (negb _); reflexivity.
Qed.

End Views.

(** ** The debounce timer over a session *)

Section Timers.

Variable K : Constants.

(** A render leaves the timers as they are or replaces them by one timer
    armed now. *)
Lemma rerender_timer_cases (prev : AppState) (fresh : bool) (c : Config) :
  timersOwned c →
  (timers (rerender prev fresh c) = timers c ∧ timeout (rerender prev fresh c) = timeout c)
  ∨ (∃ args,
       timers (rerender prev fresh c)
       = [{| timer_id := nextTimerId c; deadline := now c + 2000; timer_args := args |}]
       ∧ timeout (rerender prev fresh c) = Some (nextTimerId c)).
Proof.
  intros Ho. unfold rerender, saveEffect, saveEffectOf, saveStateToFirestore.
  destruct (fresh || _).
  - destruct (isLoading (app c) || negb (firestore c)).
    + left. destruct (object_is _ _); split; reflexivity.
    + right. exists (content (app c)).
      destruct (debounce_arms 2000 (content (app c)) c Ho) as (Ha & Hb).
      destruct (object_is _ _); split; assumption.
  - left. destruct (object_is _ _); split; reflexivity.
Qed.

Lemma timerSane_same (c c' : Config) :
  timers c' = timers c → timeout c' = timeout c → now c' = now c →
  timerSane c → timerSane c'.
Proof.
  unfold timerSane, timersOwned. intros -> -> ->. intros H. exact H.
Qed.

Lemma timerSane_armed (c' : Config) (i t : nat) (args : SyncDocument) :
  timers c' = [{| timer_id := i; deadline := t + 2000; timer_args := args |}] →
  timeout c' = Some i → now c' = t → timerSane c'.
Proof.
  unfold timerSane, timersOwned. intros -> -> ->. cbn.
  repeat split; repeat constructor; cbn; lia.
Qed.

Lemma rerender_sane (prev : AppState) (fresh : bool) (c : Config) :
  timerSane c → timerSane (rerender prev fresh c).
Proof.
  intros H. destruct (rerender_frame prev fresh c) as (_ & _ & Hn & _).
  destruct (rerender_timer_cases prev fresh c (proj1 H)) as [(Ht & Hto)|(args & Ht & Hto)].
  - exact (timerSane_same _ _ Ht Hto Hn H).
  - exact (timerSane_armed _ _ _ _ Ht Hto Hn).
Qed.

Lemma elapse_timers (ms : nat) (c : Config) :
  timers (elapse ms c) = filter (λ t, ¬ deadline t ≤ now c + ms) (timers c)
  ∧ timeout (elapse ms c) = timeout c
  ∧ now (elapse ms c) = now c + ms
  ∧ inFlight (elapse ms c) = inFlight c.
Proof.
  unfold elapse. cbn [setNow timers timeout now inFlight].
  match goal with |- context [foldl fireTimer ?x ?d] =>
    destruct (foldl_fireTimer_timers d x) as (-> & ->);
    assert (Hi : inFlight (foldl fireTimer x d) = inFlight x) end.
  { match goal with |- inFlight (foldl fireTimer ?x ?d) = _ => generalize x; generalize d end.
    intros d. induction d as [|t d IH]; intros x; [reflexivity|].
    cbn [foldl]. rewrite IH. unfold fireTimer, saveBody. cbn [setNow firestore].
    destruct (negb (firestore x)); [reflexivity|].
    destruct (sanitize (timer_args t)); reflexivity. }
  rewrite Hi. repeat split.
Qed.

Lemma elapse_sane (ms : nat) (c : Config) : timerSane c → timerSane (elapse ms c).
Proof.
  intros (Ho & Hlen & Hd). destruct (elapse_timers ms c) as (Ht & Hto & Hn & _).
  unfold timerSane, timersOwned in *. rewrite Ht, Hto, Hn.
  destruct (timers c) as [|t [|u ts]]; [| |cbn in Hlen; lia].
  - rewrite filter_nil. repeat split; [constructor | cbn; lia | constructor].
  - rewrite filter_cons, filter_nil.
    destruct (decide (¬ deadline t ≤ now c + ms)) as [Hlate|_].
    + inversion Hd as [|? ? (H1 & H2) _]; subst.
      repeat split; [exact Ho | cbn; lia | repeat constructor; lia].
    + repeat split; [constructor | cbn; lia | constructor].
Qed.

Lemma step_sane (e : Event) (c : Config) : timerSane c → timerSane (step K e c).
Proof.
  intros H. destruct e; cbn [step];
    try (apply rerender_sane; exact H); try exact H.
  - destruct (decide (l = language c)); [exact H|].
    apply rerender_sane. unfold loadEffect. destruct (negb _); exact H.
  - destruct (inFlight c) as [|l rest]; [exact H|].
    destruct (fetchData K l r acked (app c)) as [st ops].
    apply rerender_sane. exact H.
  - apply elapse_sane, H.
Qed.

Lemma boot_sane (l : Language) (fs : bool) : timerSane (boot K l fs).
Proof.
  assert (Ht : timers (boot K l fs) = []).
  { destruct fs; [apply (boot_online K l) | apply (boot_localOnly K l)]. }
  unfold timerSane, timersOwned. rewrite Ht. repeat split; [constructor | cbn; lia | constructor].
Qed.

(** X14.  In every configuration a session can reach, at most one timer is
    armed; it is the one the debounce closure remembers, it is not
    overdue, and it is due at most 2000 ms from now. *)
Theorem at_most_one_save_is_pending (c : Config) :
  reachable K c →
  length (timers c) ≤ 1
  ∧ Forall (λ t, timeout c = Some (timer_id t)
                 ∧ now c < deadline t ∧ deadline t ≤ now c + 2000) (timers c).
Proof.
  intros (l & fs & evs & ->).
  assert (H : timerSane (run K evs (boot K l fs))).
  { generalize (boot_sane l fs). generalize (boot K l fs).
    induction evs as [|e evs IH]; intros c H; [exact H|].
    cbn. apply IH, step_sane, H. }
  destruct H as (Ho & Hlen & Hd). split; [exact Hlen|].
  unfold timersOwned in Ho. rewrite Forall_forall in Ho, Hd. apply Forall_forall.
  intros t Hin. split; [apply Ho | apply Hd]; exact Hin.
Qed.

End Timers.

(** ** Spacing of the saves, and edits that are never saved *)

Section Spacing.

Variable K : Constants.

Lemma spaced_snoc (g : nat) (ts : list nat) (d : nat) :
  spaced g ts → Forall (λ t, t + g ≤ d) ts → spaced g (ts ++ [d]).
Proof.
  induction ts as [|t rest IH]; intros Hs Hall; [cbn; split; exact I|].
  inversion Hall as [|? ? Ht Hrest]; subst. destruct Hs as (Hhead & Htail).
  cbn [app spaced]. split; [|apply IH; assumption].
  destruct rest as [|u rest']; [cbn; exact Ht | exact Hhead].
Qed.

(** An event that is neither a passage of time nor a locale switch, with
    no read pending: nothing is logged, the clock stands still, and the
    timers are as before or replaced by one armed now. *)
Lemma step_quiet (e : Event) (c : Config) :
  isChangeLocale e = false → (∀ ms, e ≠ Elapse ms) → inFlight c = [] → timersOwned c →
  trace (step K e c) = trace c
  ∧ now (step K e c) = now c
  ∧ inFlight (step K e c) = []
  ∧ (timers (step K e c) = timers c
     ∨ ∃ i args, timers (step K e c)
                 = [{| timer_id := i; deadline := now c + 2000; timer_args := args |}]).
Proof.
  intros Hcl Hel Hi Ho.
  assert (Hre : ∀ f, trace (rerender (app c) true (updContent f c)) = trace c
                     ∧ now (rerender (app c) true (updContent f c)) = now c
                     ∧ inFlight (rerender (app c) true (updContent f c)) = []
                     ∧ (timers (rerender (app c) true (updContent f c)) = timers c
                        ∨ ∃ i args, timers (rerender (app c) true (updContent f c))
                            = [{| timer_id := i; deadline := now c + 2000;
                                  timer_args := args |}])).
  { intros f. destruct (rerender_frame (app c) true (updContent f c))
      as (_ & -> & -> & _ & _ & ->).
    repeat split; [exact Hi|].
    destruct (rerender_timer_cases (app c) true (updContent f c) Ho)
      as [(Ht & _)|(args & Ht & _)]; [left; exact Ht | right; eauto]. }
  destruct e; try discriminate; cbn [step]; try apply Hre;
    try (repeat split; [exact Hi | left; reflexivity]).
  - rewrite Hi. repeat split; [exact Hi | left; reflexivity].
  - destruct (Hel ms eq_refl).
Qed.

Lemma elapse_single (ms : nat) (c : Config) (t : Timer) :
  timers c = [t] → deadline t ≤ now c + ms →
  ∃ news, trace (elapse ms c) = trace c ++ news
          ∧ (news = [] ∨ ∃ p, news = [(deadline t, OpSet p)]).
Proof.
  intros H Hle. unfold elapse. rewrite H, !filter_cons, !filter_nil.
  destruct (decide (deadline t ≤ now c + ms)) as [_|Hn]; [|lia].
  destruct (decide (¬ deadline t ≤ now c + ms)) as [Hn|_]; [lia|].
  cbn [foldl]. unfold fireTimer, saveBody. cbn [setNow setTimers firestore trace].
  destruct (negb (firestore c)).
  - exists []. rewrite app_nil_r. split; [reflexivity | left; reflexivity].
  - destruct (sanitize (timer_args t)) as [p|].
    + exists [(deadline t, OpSet p)]. split; [reflexivity | right; eauto].
    + exists []. rewrite app_nil_r. split; [reflexivity | left; reflexivity].
Qed.

Lemma elapse_idle (ms : nat) (c : Config) : timers c = [] → trace (elapse ms c) = trace c.
Proof. intros H. unfold elapse. rewrite H. reflexivity. Qed.

Lemma elapse_or_not (e : Event) : (∃ ms, e = Elapse ms) ∨ (∀ ms, e ≠ Elapse ms).
Proof. destruct e; try (right; intros ms'; discriminate). left. eauto. Qed.

Lemma step_spacing (e : Event) (c : Config) (times : list nat) :
  timerSane c → inFlight c = [] → isChangeLocale e = false → spacing times c →
  ∃ news, trace (step K e c) = trace c ++ news
          ∧ Forall (λ x, isWrite x.2 = true) news
          ∧ inFlight (step K e c) = []
          ∧ spacing (times ++ news.*1) (step K e c).
Proof.
  intros Hsane Hi Hcl (Hsp & Hpast & Hbound).
  destruct (elapse_or_not e) as [(ms & ->)|Hne].
  - cbn [step]. destruct (elapse_timers ms c) as (Ht & _ & Hn & Hif).
    destruct Hsane as (_ & Hlen & Hd).
    destruct (timers c) as [|t [|u ts]] eqn:Etm; [| |cbn in Hlen; lia].
    + exists []. rewrite app_nil_r, (elapse_idle ms c Etm). cbn [fmap list_fmap].
      rewrite app_nil_r. repeat split; [constructor | congruence | exact Hsp | |].
      * eapply Forall_impl; [exact Hpast|]. intros x Hx. cbn in Hx. lia.
      * rewrite Ht, filter_nil. constructor.
    + inversion Hd as [|? ? (Hlo & Hhi) _]; subst.
      inversion Hbound as [|? ? Hb _]; subst.
      destruct (decide (deadline t ≤ now c + ms)) as [Hdue|Hlate].
      * destruct (elapse_single ms c t Etm Hdue) as (news & Htr & [-> | (p & ->)]).
        -- exists []. rewrite Htr. cbn [fmap list_fmap]. rewrite !app_nil_r.
           repeat split; [constructor | congruence | exact Hsp | |].
           ++ eapply Forall_impl; [exact Hpast|]. intros x Hx. cbn in Hx. lia.
           ++ rewrite Ht, filter_cons, filter_nil.
              destruct (decide (¬ deadline t ≤ now c + ms)); [lia | constructor].
        -- exists [(deadline t, OpSet p)]. rewrite Htr. cbn [fmap list_fmap fst].
           repeat split; [repeat constructor | congruence | | |].
           ++ apply spaced_snoc; assumption.
           ++ apply Forall_app. split.
              ** eapply Forall_impl; [exact Hpast|]. intros x Hx. cbn in Hx. lia.
              ** repeat constructor. lia.
           ++ rewrite Ht, filter_cons, filter_nil.
              destruct (decide (¬ deadline t ≤ now c + ms)); [lia | constructor].
      * exists []. rewrite app_nil_r. cbn [fmap list_fmap]. rewrite app_nil_r.
        rewrite (elapse_before ms c t Etm) by lia.
        repeat split; [constructor | exact Hi | exact Hsp | |].
        -- eapply Forall_impl; [exact Hpast|]. intros x Hx. cbn in Hx |- *. lia.
        -- cbn [setNow timers]. rewrite Etm. constructor; [exact Hb | constructor].
  - destruct (step_quiet e c Hcl Hne Hi (proj1 Hsane)) as (Htr & Hn & Hif & Htm).
    exists []. rewrite app_nil_r. cbn [fmap list_fmap]. rewrite app_nil_r.
    repeat split; [exact Htr | constructor | exact Hif | exact Hsp | |].
    + rewrite Hn. exact Hpast.
    + destruct Htm as [-> | (i & args & ->)]; [exact Hbound|].
      constructor; [|constructor]. cbn [deadline].
      eapply Forall_impl; [exact Hpast|]. intros x Hx. cbn in Hx. lia.
Qed.

Lemma run_spacing (evs : list Event) (c : Config) (times : list nat) :
  timerSane c → inFlight c = [] → Forall (λ e, isChangeLocale e = false) evs →
  spacing times c →
  ∃ news, trace (run K evs c) = trace c ++ news
          ∧ Forall (λ x, isWrite x.2 = true) news
          ∧ spacing (times ++ news.*1) (run K evs c).
Proof.
  revert c times. induction evs as [|e evs IH]; intros c times Hsane Hi Hall Hsp.
  - exists []. cbn. rewrite !app_nil_r. split; [reflexivity | split; [constructor | exact Hsp]].
  - inversion Hall as [|? ? He Hall']; subst.
    destruct (step_spacing e c times Hsane Hi He Hsp) as (n1 & Ht1 & Hw1 & Hi1 & Hsp1).
    destruct (IH (step K e c) (times ++ n1.*1) (step_sane K e c Hsane) Hi1 Hall' Hsp1)
      as (n2 & Ht2 & Hw2 & Hsp2).
    exists (n1 ++ n2). cbn [run foldl]. fold (run K evs (step K e c)).
    split; [rewrite Ht2, Ht1, app_assoc; reflexivity|].
    split; [apply Forall_app; split; assumption|].
    rewrite fmap_app, app_assoc. exact Hsp2.
Qed.

(** X15.  Debounced saves are at least 2000 ms apart.  Over a stretch of a
    session with at most one timer armed at its start, no read pending and
    no locale switch, whatever is added to the store log is a write, no
    write is dated in the future, and the writes added are dated in
    increasing order with at least 2000 ms between one and the next. *)
Theorem saves_are_at_least_2000ms_apart (c : Config) (evs : list Event) :
  timerSane c → inFlight c = [] → Forall (λ e, isChangeLocale e = false) evs →
  ∃ news, trace (run K evs c) = trace c ++ news
          ∧ Forall (λ x, isWrite x.2 = true) news
          ∧ spaced 2000 (news.*1)
          ∧ Forall (λ x, x.1 ≤ now (run K evs c)) news.
Proof.
  intros Hsane Hi Hall.
  destruct (run_spacing evs c [] Hsane Hi Hall) as (news & Ht & Hw & Hsp & Hpast & _).
  { repeat split; [constructor|]. apply Forall_forall. intros tm _. constructor. }
  exists news. rewrite app_nil_l in Hsp, Hpast. repeat split; try assumption.
  rewrite Forall_fmap in Hpast. exact Hpast.
Qed.

Lemma step_edit_frame (e : Event) (c : Config) :
  isEdit e = true →
  language (step K e c) = language c ∧ inFlight (step K e c) = inFlight c.
Proof.
  intros He. rewrite (step_edit K e c He).
  destruct (rerender_frame (app c) true (updContent (editOf e) c)) as (_ & _ & _ & _ & -> & ->).
  split; reflexivity.
Qed.

Lemma pendingSave_owned (c : Config) : pendingSave c → timersOwned c.
Proof.
  intros (i & Ht & Hto). unfold timersOwned. rewrite Ht, Hto.
  constructor; [reflexivity | constructor].
Qed.

(** X16.  An edit of a collection followed within 2000 ms by a switch to
    another locale is lost and never saved: after the switch the four
    collections are the new locale's defaults, the only timer armed
    carries the state as it is then, and the store log has gained the read
    of the new load cycle and no write. *)
Theorem locale_switch_discards_a_pending_edit
    (c : Config) (e : Event) (gap : nat) (l : Language) :
  saving c → timersOwned c → isCollectionEdit e = true → gap < 2000 → l ≠ language c →
  let c' := step K (ChangeLocale l) (step K (Elapse gap) (step K e c)) in
  (workExperience (content (app c')) = baseWorkExperience K l
   ∧ projects (content (app c')) = baseProjects K l
   ∧ certifications (content (app c')) = baseCertifications K l
   ∧ skills (content (app c')) = baseSkills K l)
  ∧ pendingSave c'
  ∧ trace c' = trace c ++ [(now c + gap, OpGet)].
Proof.
  intros Hs Ho Hce Hgap Hl c'.
  assert (He : isEdit e = true) by (destruct e; try discriminate; reflexivity).
  destruct (step_edit_arms K e c He Hs Ho) as (Hs1 & Hp1 & Ht1 & Hn1).
  destruct (step_edit_frame e c He) as (Hl1 & _).
  pose proof Hp1 as (i & Htm1 & Hto1).
  set (c1 := step K e c) in *.
  assert (E2 : step K (Elapse gap) c1 = setNow (now c1 + gap) c1).
  { cbn [step]. apply (elapse_before gap c1 _ Htm1). cbn [deadline]. lia. }
  subst c'. rewrite E2. set (c2 := setNow (now c1 + gap) c1).
  assert (Hl2 : l ≠ language c2) by (cbn [c2 setNow language]; congruence).
  rewrite (step_ChangeLocale K c2 l Hl2).
  set (c0 := updContent (languageEffect K l) (setLanguage l c2)).
  assert (Hon : loadEffect c0 = setInFlight (inFlight c0 ++ [language c0]) (logOps [OpGet] c0)).
  { apply loadEffect_online. exact (proj1 Hs1). }
  split; [|split].
  - match goal with |- context [rerender ?p ?f ?x] =>
      destruct (rerender_content p f x) as (-> & _) end.
    rewrite loadEffect_content. apply languageEffect_collections.
  - apply rerender_saves; [reflexivity | |].
    + rewrite Hon. split; [exact (proj1 Hs1) | exact (proj2 Hs1)].
    + rewrite Hon. exact (pendingSave_owned c1 Hp1).
  - match goal with |- context [rerender ?p ?f ?x] =>
      destruct (rerender_frame p f x) as (_ & -> & _) end.
    rewrite Hon. cbn [setInFlight logOps trace c0 updContent setApp setLanguage c2 setNow now].
    rewrite Ht1, Hn1. reflexivity.
Qed.

(** X17.  An edit made while a read is pending is overwritten by the
    answer: when the read delivers an existing document within 2000 ms of
    the edit, the six values become the document laid over the defaults
    of the locale the read was issued for, whatever was edited, the only
    timer armed carries those values, and nothing has been written. *)
Theorem load_answer_overwrites_a_pending_edit
    (c : Config) (e : Event) (gap : nat) (l : Language) (rest : list Language)
    (data : obj) (acked : bool) :
  saving c → timersOwned c → isEdit e = true → gap < 2000 → inFlight c = l :: rest →
  let c' := step K (FetchSettled (existing data) acked) (step K (Elapse gap) (step K e c)) in
  content (app c') = applyRemote K l data
  ∧ pendingSave c'
  ∧ trace c' = trace c.
Proof.
  intros Hs Ho He Hgap Hi c'.
  destruct (step_edit_arms K e c He Hs Ho) as (Hs1 & Hp1 & Ht1 & Hn1).
  destruct (step_edit_frame e c He) as (_ & Hi1).
  pose proof Hp1 as (i & Htm1 & Hto1).
  set (c1 := step K e c) in *.
  assert (E2 : step K (Elapse gap) c1 = setNow (now c1 + gap) c1).
  { cbn [step]. apply (elapse_before gap c1 _ Htm1). cbn [deadline]. lia. }
  subst c'. rewrite E2. set (c2 := setNow (now c1 + gap) c1).
  assert (Hi2 : inFlight c2 = l :: rest) by (cbn [c2 setNow inFlight]; congruence).
  split; [exact (step_FetchSettled_existing K c2 l rest data acked Hi2)|].
  cbn [step]. rewrite Hi2, fetchData_existing. split.
  - apply rerender_saves; [reflexivity | |].
    + split; [exact (proj1 Hs1) | reflexivity].
    + exact (pendingSave_owned c1 Hp1).
  - match goal with |- context [rerender ?p ?f ?x] =>
      destruct (rerender_frame p f x) as (_ & -> & _) end.
    cbn [setApp logOps setInFlight trace c2 setNow fmap list_fmap].
    rewrite app_nil_r. exact Ht1.
Qed.

End Spacing.

(** ** Saving and loading back *)

Section RoundTrip.

Variable K : Constants.

Lemma documentOf_lookup (p : SyncDocument) :
  documentOf p !! "personalInfo" = Some (Obj (personalInfo p))
  ∧ documentOf p !! "workExperience" = Some (workExperience p)
  ∧ documentOf p !! "projects" = Some (projects p)
  ∧ documentOf p !! "certifications" = Some (certifications p)
  ∧ documentOf p !! "skills" = Some (skills p)
  ∧ documentOf p !! "themeSettings" = Some (Obj (themeSettings p)).
Proof. repeat split; reflexivity. Qed.

Lemma applyRemote_documentOf (l : Language) (p : SyncDocument) :
  applyRemote K l (documentOf p)
  = {| personalInfo := objectSpread (basePersonalInfo K l) (Obj (personalInfo p));
       workExperience := or_else (Some (workExperience p)) (baseWorkExperience K l);
       projects := or_else (Some (projects p)) (baseProjects K l);
       certifications := or_else (Some (certifications p)) (baseCertifications K l);
       skills := or_else (Some (skills p)) (baseSkills K l);
       themeSettings := objectSpread (INITIAL_THEME_SETTINGS K) (Obj (themeSettings p)) |}.
Proof.
  destruct (documentOf_lookup p) as (H1 & H2 & H3 & H4 & H5 & H6).
  unfold applyRemote. rewrite H1, H2, H3, H4, H5, H6. reflexivity.
Qed.

Lemma mapImages_Arr (url : string) (xs ys : value) :
  mapImages url xs = Some ys → ∃ l, ys = Arr l.
Proof.
  destruct xs as [| | | |l|]; cbn [mapImages]; try discriminate.
  destruct (mapM (replaceInlineImage url) l) as [k|]; [|discriminate].
  cbn. intros H. injection H as <-. eauto.
Qed.

(** X18.  What is saved comes back on the next load.  When the store
    returns a written payload as the document, loading it gives back every
    field of the payload's personal info and theme unchanged (fields the
    payload lacks are filled from the defaults), its projects and
    certificates as written, and its work experience and skills as written
    whenever they are truthy. *)
Theorem saved_state_is_restored_on_load (l : Language) (d p : SyncDocument) :
  sanitize d = Some p →
  let back := applyRemote K l (documentOf p) in
  (∀ k, personalInfo back !! k
        = match personalInfo p !! k with
          | Some v => Some v
          | None => basePersonalInfo K l !! k
          end)
  ∧ (∀ k, themeSettings back !! k
          = match themeSettings p !! k with
            | Some v => Some v
            | None => INITIAL_THEME_SETTINGS K !! k
            end)
  ∧ projects back = projects p
  ∧ certifications back = certifications p
  ∧ (truthy (workExperience d) = true → workExperience back = workExperience d)
  ∧ (truthy (skills d) = true → skills back = skills d).
Proof.
  intros H back. subst back. rewrite applyRemote_documentOf.
  cbn [personalInfo themeSettings projects certifications workExperience skills].
  destruct (sanitize_Some d p H) as (pi1 & ts1 & _ & _ & _ & _ & E5 & E6 & Hw & Hs).
  destruct (mapImages_Arr _ _ _ E5) as (lp & Hp).
  destruct (mapImages_Arr _ _ _ E6) as (lc & Hc).
  split; [intros k; apply lookup_objectSpread|].
  split; [intros k; apply lookup_objectSpread|].
  split; [rewrite Hp; reflexivity|]. split; [rewrite Hc; reflexivity|].
  rewrite Hw, Hs. cbn [or_else]. split; intros E; rewrite E; reflexivity.
Qed.

Lemma objectSpread_twice (base r : obj) :
  objectSpread base (Obj (objectSpread base (Obj r))) = objectSpread base (Obj r).
Proof.
  apply map_eq. intros k. rewrite !lookup_objectSpread. cbn [ownProps].
  rewrite lookup_objectSpread. cbn [ownProps].
  destruct (r !! k); [reflexivity|]. destruct (base !! k); reflexivity.
Qed.

Lemma or_else_twice (x : option value) (l : list value) :
  or_else (Some (or_else x (Arr l))) (Arr l) = or_else x (Arr l).
Proof.
  destruct x as [v|]; cbn [or_else]; [|reflexivity].
  destruct (truthy v) eqn:E; [rewrite E; reflexivity | reflexivity].
Qed.

(** X19.  Loading is idempotent: when the six values that a load has
    produced are written back as they are and loaded again under the same
    locale, they come back unchanged, whatever the first document held. *)
Theorem load_is_idempotent (l : Language) (data : obj) :
  applyRemote K l (documentOf (applyRemote K l data)) = applyRemote K l data.
Proof.
  rewrite applyRemote_documentOf. unfold applyRemote at 7.
  cbn [personalInfo themeSettings projects certifications workExperience skills applyRemote].
  unfold baseWorkExperience, baseProjects, baseCertifications, baseSkills.
  rewrite !or_else_twice.
  assert (H : ∀ base x, objectSpread base (Obj (objectSpread base (or_else x (Obj ∅))))
                        = objectSpread base (or_else x (Obj ∅))).
  { intros base x. unfold objectSpread at 2 3. rewrite ownProps_or_else_empty.
    change (remoteFields x ∪ base) with (objectSpread base (Obj (remoteFields x))).
    apply objectSpread_twice. }
  rewrite !H. reflexivity.
Qed.

End RoundTrip.

(** ** Instances of the further properties *)

Lemma reachable_boot (K : Constants) (l : Language) (fs : bool) : reachable K (boot K l fs).
Proof. exists l, fs, []. reflexivity. Qed.

Lemma reachable_run (K : Constants) (evs : list Event) (c : Config) :
  reachable K c → reachable K (run K evs c).
Proof.
  intros (l & fs & evs0 & ->). exists l, fs, (evs0 ++ evs).
  unfold run. rewrite foldl_app. reflexivity.
Qed.

Lemma reachable_loaded : reachable Sample.K Sample.loaded.
Proof. apply (reachable_run Sample.K [FetchSettled absent true]), reachable_boot. Qed.

Lemma sanitize_idempotent_on_sample : sanitize Sample.clean = Some Sample.clean.
Proof.
  apply (sanitize_idempotent Sample.dirty Sample.clean). vm_compute. reflexivity.
Defined.

Lemma sanitize_leaves_sample_defaults :
  sanitize (defaults Sample.K EN) = Some (defaults Sample.K EN).
Proof.
  apply sanitize_leaves_clean_state.
  - unfold sanitizable. vm_compute. repeat constructor.
  - unfold inlineFree. vm_compute. repeat constructor.
Defined.

Lemma sanitize_keeps_shape_on_sample :
  dom (personalInfo Sample.clean) = dom (personalInfo Sample.dirty)
  ∧ dom (themeSettings Sample.clean) = dom (themeSettings Sample.dirty).
Proof.
  destruct (sanitize_keeps_shape Sample.dirty Sample.clean) as (H1 & H2 & _).
  - vm_compute. reflexivity.
  - split; [exact H1 | exact H2].
Defined.

Lemma session_writes_on_sample :
  Forall (λ x, acceptable Sample.K x.2)
    (trace (run Sample.K Sample.editing Sample.loaded)).
Proof.
  apply (session_writes_are_bootstrap_or_sanitised Sample.K).
  apply reachable_run, reachable_loaded.
Defined.

Lemma limited_view_on_sample :
  (renderPage (app Sample.loaded) = LimitedIntroduction
   ∧ isLocked (app Sample.loaded) = true)
  ∧ (renderPage (firstRender Sample.K (EditThemeSettings Sample.themeOff) Sample.loaded)
     = LimitedIntroduction
     ∧ isLocked (firstRender Sample.K (EditThemeSettings Sample.themeOff) Sample.loaded)
       = false
     ∧ isLocked (app (step Sample.K (EditThemeSettings Sample.themeOff) Sample.loaded))
       = false).
Proof.
  destruct (limited_view_matches_lock_once_effects_have_run Sample.K Sample.loaded)
    as (((H1 & H2) & _) & H3).
  - exact reachable_loaded.
  - split.
    + assert (H : isLocked (app Sample.loaded) = true) by (vm_compute; reflexivity).
      split; [exact (H2 H) | exact H].
    + destruct (H3 (EditThemeSettings Sample.themeOff)) as (_ & H4).
      destruct H4 as (Ha & Hb & _ & Hd).
      * vm_compute. reflexivity.
      * vm_compute. reflexivity.
      * split; [exact Ha | split; [exact Hb | exact Hd]].
Defined.

Lemma admin_unlock_does_not_open_the_editor_on_sample :
  let evs := [SubmitAdminLogin "Minh" "2004"; Navigate Page.Settings] in
  isAuthenticated (app (run Sample.K evs Sample.loaded)) = false
  ∧ renderPage (app (run Sample.K evs Sample.loaded)) = LoginForm.
Proof.
  intros evs.
  destruct (settings_editor_requires_login Sample.K Sample.loaded evs) as (H1 & _).
  - vm_compute. reflexivity.
  - repeat constructor.
  - split; [exact H1 | vm_compute; reflexivity].
Defined.

Lemma locale_switch_keeps_theme_on_sample :
  themeSettings (content (app Sample.reloading)) = themeSettings (content (app Sample.loaded))
  ∧ personalInfo (content (app Sample.reloading)) !! "title" = Some (Str "Engineer")
  ∧ isSiteUnlocked (app Sample.reloading) = isSiteUnlocked (app Sample.loaded).
Proof.
  assert (Hl : EN ≠ language Sample.loaded) by (vm_compute; discriminate).
  destruct (locale_switch_merges_personal_info_and_keeps_theme Sample.K Sample.loaded EN Hl)
    as (H1 & H2 & H3 & _).
  split; [exact H1|]. split.
  - unfold Sample.reloading. rewrite H2. vm_compute. reflexivity.
  - apply H3. vm_compute. exact I.
Defined.

Lemma sample_loaded_sane : timerSane Sample.loaded.
Proof. apply step_sane, boot_sane. Qed.

Lemma at_most_one_save_is_pending_on_sample :
  length (timers (run Sample.K Sample.editing Sample.loaded)) ≤ 1.
Proof.
  destruct (at_most_one_save_is_pending Sample.K
              (run Sample.K Sample.editing Sample.loaded)) as (H & _).
  - apply reachable_run, reachable_loaded.
  - exact H.
Defined.

Lemma saves_are_spaced_on_sample :
  ∃ news,
    trace (run Sample.K Sample.editing Sample.loaded) = trace Sample.loaded ++ news
    ∧ spaced 2000 (news.*1).
Proof.
  destruct (saves_are_at_least_2000ms_apart Sample.K Sample.loaded Sample.editing)
    as (news & H1 & _ & H2 & _).
  - exact sample_loaded_sane.
  - vm_compute. reflexivity.
  - repeat constructor.
  - exists news. split; [exact H1 | exact H2].
Defined.

Lemma sample_loaded_saving : saving Sample.loaded ∧ timersOwned Sample.loaded.
Proof.
  split; [split; vm_compute; reflexivity|]. apply (proj1 sample_loaded_sane).
Qed.

Lemma locale_switch_discards_sample_edit :
  let c' := step Sample.K (ChangeLocale EN)
              (step Sample.K (Elapse 500)
                 (step Sample.K (EditProjects (Arr [])) Sample.loaded)) in
  projects (content (app c')) = baseProjects Sample.K EN
  ∧ pendingSave c'
  ∧ trace c' = trace Sample.loaded ++ [(500, OpGet)].
Proof.
  destruct (locale_switch_discards_a_pending_edit Sample.K Sample.loaded
              (EditProjects (Arr [])) 500 EN) as ((_ & H1 & _) & H2 & H3).
  - exact (proj1 sample_loaded_saving).
  - exact (proj2 sample_loaded_saving).
  - reflexivity.
  - lia.
  - vm_compute. discriminate.
  - split; [exact H1 | split; [exact H2 | exact H3]].
Defined.

Lemma sample_reloading_saving :
  saving Sample.reloading ∧ timersOwned Sample.reloading ∧ inFlight Sample.reloading = [EN].
Proof.
  split; [split; vm_compute; reflexivity|]. split; [|vm_compute; reflexivity].
  apply step_owned, (proj2 sample_loaded_saving).
Qed.

Lemma load_answer_overwrites_sample_edit :
  let data : obj := <["skills" := Arr [Str "Rocq"]]> ∅ in
  let c' := step Sample.K (FetchSettled (existing data) true)
              (step Sample.K (Elapse 300)
                 (step Sample.K (EditSkills (Arr [Str "Lean"])) Sample.reloading)) in
  content (app c') = applyRemote Sample.K EN data
  ∧ skills (content (app c')) = Arr [Str "Rocq"]
  ∧ trace c' = trace Sample.reloading.
Proof.
  intros data c'.
  destruct (load_answer_overwrites_a_pending_edit Sample.K Sample.reloading
              (EditSkills (Arr [Str "Lean"])) 300 EN [] data true) as (H1 & _ & H3).
  - exact (proj1 sample_reloading_saving).
  - exact (proj1 (proj2 sample_reloading_saving)).
  - reflexivity.
  - lia.
  - exact (proj2 (proj2 sample_reloading_saving)).
  - fold c' in H1, H3. split; [exact H1|]. split; [|exact H3].
    rewrite H1. vm_compute. reflexivity.
Defined.

Lemma saved_sample_state_is_restored :
  let back := applyRemote Sample.K EN (documentOf Sample.clean) in
  projects back = projects Sample.clean
  ∧ personalInfo back !! "bio" = personalInfo Sample.clean !! "bio"
  ∧ workExperience back = workExperience Sample.dirty.
Proof.
  intros back.
  destruct (saved_state_is_restored_on_load Sample.K EN Sample.dirty Sample.clean)
    as (H1 & _ & H3 & _ & H5 & _).
  - vm_compute. reflexivity.
  - fold back in H1, H3, H5. split; [exact H3|]. split.
    + rewrite H1. vm_compute. reflexivity.
    + apply H5. reflexivity.
Defined.
